(** * outlook_attachment_getter: a shallow embedding of [outlook_attach.py]

    The class [outlook_attachment] is glue over three collaborators: the
    Outlook MAPI namespace (folders, [Restrict], [Sort], [SaveAsFile]),
    [zipfile] and the process clock.  Methods are embedded as functions in
    a state-and-exception monad over a [world] that holds the instance
    fields, the files written, and the chronological list of calls made
    to the collaborators and to [print]. *)

From Stdlib Require Import ZArith String Ascii List Lia Bool.
From stdpp Require Import base gmap list strings sorting.

Local Open Scope string_scope.
Local Open Scope Z_scope.

(** ** Python's [datetime.datetime] *)

Module Datetime.

Record datetime := mkdt {
  year : Z; month : Z; day : Z;
  hour : Z; minute : Z; second : Z; microsecond : Z
}.

(** Python compares the field tuples lexicographically. *)
Definition key (d : datetime) : list Z :=
  [year d; month d; day d; hour d; minute d; second d; microsecond d].

Fixpoint lex_cmp (a b : list Z) : comparison :=
  match a, b with
  | [], [] => Eq
  | [], _ :: _ => Lt
  | _ :: _, [] => Gt
  | x :: a', y :: b' =>
      match Z.compare x y with
      | Eq => lex_cmp a' b'
      | c => c
      end
  end.

Definition cmp (a b : datetime) : comparison := lex_cmp (key a) (key b).

(** [a <= b] and [a > b] of the source. *)
Definition leb (a b : datetime) : bool :=
  match cmp a b with Gt => false | _ => true end.
Definition gtb (a b : datetime) : bool := negb (leb a b).

Definition le (a b : datetime) : Prop := leb a b = true.

Definition is_leap (y : Z) : bool :=
  ((y mod 4 =? 0) && negb (y mod 100 =? 0)) || (y mod 400 =? 0).

Definition days_in_month (y m : Z) : Z :=
  if m =? 2 then (if is_leap y then 29 else 28)
  else if (m =? 4) || (m =? 6) || (m =? 9) || (m =? 11) then 30
  else 31.

(** The values a [datetime.datetime] object can hold (MINYEAR = 1,
    MAXYEAR = 9999). *)
Definition valid (d : datetime) : bool :=
  (1 <=? year d) && (year d <=? 9999) &&
  (1 <=? month d) && (month d <=? 12) &&
  (1 <=? day d) && (day d <=? days_in_month (year d) (month d)) &&
  (0 <=? hour d) && (hour d <? 24) &&
  (0 <=? minute d) && (minute d <? 60) &&
  (0 <=? second d) && (second d <? 60) &&
  (0 <=? microsecond d) && (microsecond d <? 1000000).

(** The instant with the seconds and microseconds cleared. *)
Definition floor_minute (d : datetime) : datetime :=
  mkdt (year d) (month d) (day d) (hour d) (minute d) 0 0.

(** [dt.datetime(year=y, month=m, day=d)]: the remaining fields default
    to zero. *)
Definition at_midnight (y m d : Z) : datetime := mkdt y m d 0 0 0 0.

(** *** [strftime] *)

Definition digit (n : Z) : ascii := ascii_of_nat (48 + Z.to_nat (n mod 10)).

Definition pad2 (n : Z) : string :=
  String (digit (n / 10)) (String (digit n) EmptyString).

Definition pad4 (n : Z) : string :=
  String (digit (n / 1000)) (String (digit (n / 100))
    (String (digit (n / 10)) (String (digit n) EmptyString))).

(** [%p] in the C locale. *)
Definition am_pm (d : datetime) : string :=
  if hour d <? 12 then "AM" else "PM".

(** [%I]: the hour on the 12-hour clock. *)
Definition hour12 (d : datetime) : Z :=
  if hour d mod 12 =? 0 then 12 else hour d mod 12.

(** [d.strftime("%m/%d/%Y %H:%M %p")], the format of the filter strings
    and of the interval error message. *)
Definition strftime_HM (d : datetime) : string :=
  pad2 (month d) ++ "/" ++ pad2 (day d) ++ "/" ++ pad4 (year d) ++ " " ++
  pad2 (hour d) ++ ":" ++ pad2 (minute d) ++ " " ++ am_pm d.

(** [d.strftime("%m/%d/%Y %I:%M %p")], the format of the progress lines. *)
Definition strftime_IM (d : datetime) : string :=
  pad2 (month d) ++ "/" ++ pad2 (day d) ++ "/" ++ pad4 (year d) ++ " " ++
  pad2 (hour12 d) ++ ":" ++ pad2 (minute d) ++ " " ++ am_pm d.

End Datetime.

Import Datetime.

(** ** Strings as Python uses them *)

(** [needle in hay] on [str]: substring containment. *)
Fixpoint str_in (needle hay : string) : bool :=
  String.prefix needle hay ||
  match hay with
  | EmptyString => false
  | String _ hay' => str_in needle hay'
  end.

(** The rest of [s] after the prefix [p], when [s] starts with it. *)
Fixpoint strip_prefix (p s : string) : option string :=
  match p, s with
  | EmptyString, _ => Some s
  | String a p', String b s' => if Ascii.eqb a b then strip_prefix p' s' else None
  | String _ _, EmptyString => None
  end.

Definition nl : string := String (ascii_of_nat 10) EmptyString.
Definition backslash : string := String (ascii_of_nat 92) EmptyString.

(** ** The Outlook object model, as far as the class touches it *)

(** What a file holds: plain bytes, or a zip archive with its members in
    directory order ([zipfile.is_zipfile] holds of the second only). *)
Inductive blob :=
| Bytes (data : string)
| Archive (members : list (string * string)).

Record Attachment := mkAttachment { FileName : string; payload : blob }.

Record MailItem := mkMail {
  Subject : string;
  ReceivedTime : datetime;
  Attachments : list Attachment
}.

#[warnings="-register-all"]
Inductive Folder := mkFolder (items : list MailItem) (subfolders : list (string * Folder)).

Definition Items (f : Folder) : list MailItem :=
  match f with mkFolder items _ => items end.
Definition Folders (f : Folder) : list (string * Folder) :=
  match f with mkFolder _ subs => subs end.

(** [folders[name]]: the first folder of that name. *)
Fixpoint folders_item (folders : list (string * Folder)) (name : string) : option Folder :=
  match folders with
  | [] => None
  | (n, f) :: rest => if String.eqb n name then Some f else folders_item rest name
  end.

(** *** [Items.Restrict]

    The collaborator receives a filter string
    [[ReceivedTime] >= 'MM/DD/YYYY HH:MM AM'].  It is modelled as reading
    the date-time literal back (the hour field is taken on the 24-hour
    clock as [%H] wrote it, the AM/PM marker is only checked to be there;
    the literal has no seconds and denotes second 0 of its minute) and
    keeping the items whose [ReceivedTime] compares accordingly. *)

Inductive filter_op := FGe | FLe.

Definition digit_val (c : ascii) : option Z :=
  let n := Z.of_nat (nat_of_ascii c) in
  if (48 <=? n) && (n <=? 57) then Some (n - 48) else None.

Definition num2 (a b : ascii) : option Z :=
  match digit_val a, digit_val b with
  | Some x, Some y => Some (10 * x + y)
  | _, _ => None
  end.

Definition num4 (a b c d : ascii) : option Z :=
  match num2 a b, num2 c d with
  | Some x, Some y => Some (100 * x + y)
  | _, _ => None
  end.

Definition is_char (c : ascii) (s : string) : bool :=
  String.eqb (String c EmptyString) s.

Definition parse_literal (l : list ascii) : option datetime :=
  match l with
  | [m1; m2; s1; d1; d2; s2; y1; y2; y3; y4; b1; h1; h2; c1; n1; n2; b2; p1; p2; q] =>
      if is_char s1 "/" && is_char s2 "/" && is_char b1 " " && is_char c1 ":" &&
         is_char b2 " " && (is_char p1 "A" || is_char p1 "P") && is_char p2 "M" &&
         is_char q "'"
      then
        match num2 m1 m2, num2 d1 d2, num4 y1 y2 y3 y4, num2 h1 h2, num2 n1 n2 with
        | Some mo, Some dd, Some yy, Some hh, Some mi => Some (mkdt yy mo dd hh mi 0 0)
        | _, _, _, _, _ => None
        end
      else None
  | _ => None
  end.

Definition parse_filter (f : string) : option (filter_op * datetime) :=
  match strip_prefix "[ReceivedTime] >= '" f with
  | Some rest => option_map (pair FGe) (parse_literal (list_ascii_of_string rest))
  | None =>
      match strip_prefix "[ReceivedTime] <= '" f with
      | Some rest => option_map (pair FLe) (parse_literal (list_ascii_of_string rest))
      | None => None
      end
  end.

Definition passes (op : filter_op) (lit : datetime) (e : MailItem) : bool :=
  match op with
  | FGe => Datetime.leb lit (ReceivedTime e)
  | FLe => Datetime.leb (ReceivedTime e) lit
  end.

Definition Restrict (emails : list MailItem) (f : string) : option (list MailItem) :=
  match parse_filter f with
  | Some (op, lit) => Some (List.filter (passes op lit) emails)
  | None => None
  end.

(** *** [Items.Sort("[ReceivedTime]", True)]: descending by received time *)

Definition newer_first (a b : MailItem) : Prop :=
  Datetime.le (ReceivedTime b) (ReceivedTime a).

#[global] Instance newer_first_dec a b : Decision (newer_first a b).
Proof. unfold newer_first, Datetime.le. apply _. Defined.

Definition Sort (emails : list MailItem) : list MailItem :=
  merge_sort newer_first emails.

(** ** Python values, exceptions and the world *)

(** The argument and return values the two methods see. *)
Inductive pyval :=
| PyNone
| PyStr (s : string)
| PyInt (n : Z)
| PyBool (b : bool)
| PyList (l : list string)
| PyAttachment (a : Attachment).

(** [type(v)] as an f-string prints it. *)
Definition type_repr (v : pyval) : string :=
  match v with
  | PyNone => "<class 'NoneType'>"
  | PyStr _ => "<class 'str'>"
  | PyInt _ => "<class 'int'>"
  | PyBool _ => "<class 'bool'>"
  | PyList _ => "<class 'list'>"
  | PyAttachment _ => "<class 'win32com.client.CDispatch'>"
  end.

Inductive exn :=
| AssertionError (msg : string)
| Exception (msg : string)
| AttributeError (msg : string)
| UnboundLocalError (msg : string)
| com_error (msg : string)
| OSError (msg : string)
| KeyError (msg : string).

(** Calls that leave the process, in the order they are made. *)
Inductive event :=
| EvPrint (text : string)
| EvDispatch
| EvSaveAsFile (attachment : Attachment) (path : string)
| EvExtract (member dir : string).

Record world := mkWorld {
  attachment_filepath : option string;   (* self.attachment_filepath *)
  df : option (list (list string));      (* self.df *)
  files : gmap string blob;              (* the file system *)
  trace : list event;
  outlook : list (string * Folder);      (* the MAPI namespace's Folders *)
  save_ok : string -> bool;              (* whether SaveAsFile succeeds at a path *)
  now : nat -> datetime;                 (* successive readings of the clock *)
  ticks : nat;
  extract_to : string -> string -> option string
    (* where ZipFile.extract, given a directory and a member name, writes
       the member; None when it raises *)
}.

Inductive result (A : Type) :=
| Ok (a : A)
| Raise (e : exn).
Arguments Ok {A} a.
Arguments Raise {A} e.

Definition M (A : Type) : Type := world -> result A * world.

Definition ret {A} (a : A) : M A := fun w => (Ok a, w).
Definition raise {A} (e : exn) : M A := fun w => (Raise e, w).
Definition bind {A B} (c : M A) (k : A -> M B) : M B :=
  fun w => match c w with
           | (Ok a, w') => k a w'
           | (Raise e, w') => (Raise e, w')
           end.

Notation "'let*' x ':=' c 'in' k" := (bind c (fun x => k))
  (at level 10, x name, c at level 100, k at level 200).
Notation "'run' c 'in' k" := (bind c (fun _ => k))
  (at level 10, c at level 100, k at level 200).

(** [try: c except: h] with a bare [except]. *)
Definition try_except {A} (c : M A) (h : M A) : M A :=
  fun w => match c w with
           | (Ok a, w') => (Ok a, w')
           | (Raise _, w') => h w'
           end.

Definition emit (ev : event) : M unit :=
  fun w => (Ok tt, mkWorld (attachment_filepath w) (df w) (files w)
                           (trace w ++ [ev])%list (outlook w) (save_ok w) (now w) (ticks w) (extract_to w)).

Definition print (text : string) : M unit := emit (EvPrint text).

Definition set_attachment_filepath (p : string) : M unit :=
  fun w => (Ok tt, mkWorld (Some p) (df w) (files w) (trace w)
                           (outlook w) (save_ok w) (now w) (ticks w) (extract_to w)).

Definition write_file (p : string) (b : blob) : M unit :=
  fun w => (Ok tt, mkWorld (attachment_filepath w) (df w) (<[p := b]> (files w)) (trace w)
                           (outlook w) (save_ok w) (now w) (ticks w) (extract_to w)).

Definition read_clock : M datetime :=
  fun w => (Ok (now w (ticks w)),
            mkWorld (attachment_filepath w) (df w) (files w) (trace w)
                    (outlook w) (save_ok w) (now w) (S (ticks w)) (extract_to w)).

Definition get {A} (f : world -> A) : M A := fun w => (Ok (f w), w).

Definition of_option {A} (o : option A) (e : exn) : M A :=
  match o with Some a => ret a | None => raise e end.

(** [win32com.client.Dispatch("Outlook.Application").GetNamespace("MAPI")] *)
Definition Dispatch : M (list (string * Folder)) :=
  run emit EvDispatch in get outlook.

(** [attachment.SaveAsFile(path)] *)
Definition SaveAsFile (a : Attachment) (path : string) : M unit :=
  run emit (EvSaveAsFile a path) in
  let* ok := get (fun w => save_ok w path) in
  if ok : bool then write_file path (payload a)
  else raise (com_error "SaveAsFile").

(** ** [__init__] and [get_today_interval] *)

Definition init (w : world) : world :=
  mkWorld None None (files w) (trace w) (outlook w) (save_ok w) (now w) (ticks w) (extract_to w).

Definition get_today_interval : M (datetime * datetime) :=
  let* start_date := read_clock in            (* dt.date.today() *)
  let start := at_midnight (year start_date) (month start_date) (day start_date) in
  let* end_ := read_clock in                  (* dt.datetime.today() *)
  ret (start, end_).

(** ** [get_attachment] *)

(** Where a loop of the method leaves control: it ran to its end (with
    the current value of the flag), or the method returned from inside. *)
Inductive loop_exit :=
| Fallthrough (found : bool)
| Returned (v : pyval).

(** Lines 49-53: the destination, when given, is a string with a path
    separator in it. *)
Definition check_save_attachment_as (save_attachment_as : pyval) : M (option string) :=
  match save_attachment_as with
  | PyNone => ret None
  | PyStr p =>
      if negb (str_in backslash p || str_in "/" p)
      then raise (Exception
        "Parameter save_attachment_as requires a full path. The method will not default to the current working directory.")
      else ret (Some p)
  | v => raise (AssertionError
        ("save_attachment_as must be of type string. You input an object of type " ++ type_repr v ++ "."))
  end.

(** Lines 55-58. *)
Definition check_interval (start_interval end_interval : option datetime) : M unit :=
  match start_interval, end_interval with
  | Some s, Some e =>
      if Datetime.gtb s e
      then raise (Exception
        ("Start of interval " ++ strftime_HM s ++ " is more recent than end of interval " ++
         strftime_HM e ++
         ". Start of interval must come before or at the same time as end of interval."))
      else ret tt
  | _, _ => ret tt
  end.

(** [x.strftime(...)] where [x] may be [None]. *)
Definition strftime_of (fmt : datetime -> string) (x : option datetime) : M string :=
  match x with
  | Some d => ret (fmt d)
  | None => raise (AttributeError "'NoneType' object has no attribute 'strftime'")
  end.

(** Lines 60-61: the two progress lines, printed whether or not a bound
    was given. *)
Definition print_interval (start_interval end_interval : option datetime) : M unit :=
  let* s := strftime_of strftime_IM start_interval in
  run print ("Start interval email query: " ++ s ++ nl ++ nl) in
  let* e := strftime_of strftime_IM end_interval in
  print ("End interval email query: " ++ e ++ nl ++ nl).

(** Lines 67-75: descend from the namespace through the named folders.
    With an empty list the variable [Folder] is never bound. *)
Fixpoint descend (F : Folder) (rest : list string) : M Folder :=
  match rest with
  | [] => ret F
  | folder :: rest' =>
      let* F' := of_option (folders_item (Folders F) folder) (com_error folder) in
      descend F' rest'
  end.

Definition resolve_folder (Outlook : list (string * Folder)) (folderpath_list : list string)
  : M Folder :=
  match folderpath_list with
  | [] => raise (UnboundLocalError "Folder")
  | folder :: rest =>
      let* F := of_option (folders_item Outlook folder) (com_error folder) in
      descend F rest
  end.

Definition start_filter (d : datetime) : string :=
  "[ReceivedTime] >= '" ++ strftime_HM d ++ "'".
Definition end_filter (d : datetime) : string :=
  "[ReceivedTime] <= '" ++ strftime_HM d ++ "'".

(** Lines 77-85. *)
Definition restrict_opt (mk : datetime -> string) (bound : option datetime)
    (emails : list MailItem) : M (list MailItem) :=
  match bound with
  | Some d => of_option (Restrict emails (mk d)) (com_error (mk d))
  | None => ret emails
  end.

(** Lines 101-114: what happens at the first attachment of the wanted
    name. *)
Definition take_attachment (attachment : Attachment) (save_attachment_as : option string)
  : M loop_exit :=
  match save_attachment_as with
  | Some p =>
      try_except
        (run SaveAsFile attachment p in
         run print ("Most recent email attachment that meets criteria has been saved as " ++
                    p ++ nl ++ nl) in
         run set_attachment_filepath p in
         ret (Returned PyNone))
        (raise (Exception "Attachment was not saved. Please refer to Python error."))
  | None => ret (Returned (PyAttachment attachment))
  end.

(** Lines 97-114: the inner loop. *)
Fixpoint scan_attachments (attachments : list Attachment) (email_attachment_name : string)
    (save_attachment_as : option string) (found : bool) : M loop_exit :=
  match attachments with
  | [] => ret (Fallthrough found)
  | attachment :: rest =>
      if String.eqb (FileName attachment) email_attachment_name
      then take_attachment attachment save_attachment_as
      else scan_attachments rest email_attachment_name save_attachment_as found
  end.

(** Lines 93-114: the outer loop. *)
Fixpoint scan_emails (emails : list MailItem) (email_subject_name email_attachment_name : string)
    (save_attachment_as : option string) (found : bool) : M loop_exit :=
  match emails with
  | [] => ret (Fallthrough found)
  | email :: rest =>
      if String.eqb (Subject email) email_subject_name
      then
        let* r := scan_attachments (Attachments email) email_attachment_name
                                   save_attachment_as found in
        match r with
        | Fallthrough found' =>
            scan_emails rest email_subject_name email_attachment_name save_attachment_as found'
        | Returned v => ret (Returned v)
        end
      else scan_emails rest email_subject_name email_attachment_name save_attachment_as found
  end.

Definition not_found_message (email_subject_name email_attachment_name : string) : string :=
  "Could not find email " ++ email_subject_name ++ " with attachment " ++
  email_attachment_name ++ " within (un)specified time interval.".

(** Lines 55-117, once the four checked arguments have their types. *)
Definition get_attachment_body (folderpath_list : list string)
    (email_subject_name email_attachment_name : string)
    (start_interval end_interval : option datetime) (save_attachment_as : option string)
  : M pyval :=
  run check_interval start_interval end_interval in
  run print_interval start_interval end_interval in
  let* Outlook := Dispatch in
  let* F := resolve_folder Outlook folderpath_list in
  let emails := Items F in
  let* emails := restrict_opt start_filter start_interval emails in
  let* emails := restrict_opt end_filter end_interval emails in
  let emails := Sort emails in
  let* r := scan_emails emails email_subject_name email_attachment_name
                        save_attachment_as false in
  match r with
  | Returned v => ret v
  | Fallthrough found =>
      if negb found
      then raise (Exception (not_found_message email_subject_name email_attachment_name))
      else ret PyNone
  end.

(** The interval arguments are [None] or a [datetime], so the two
    [isinstance] assertions of lines 79 and 84 hold. *)
Definition get_attachment (folderpath_list email_subject_name email_attachment_name : pyval)
    (start_interval end_interval : option datetime) (save_attachment_as : pyval) : M pyval :=
  match folderpath_list with
  | PyList path =>
      match email_subject_name with
      | PyStr subject =>
          match email_attachment_name with
          | PyStr name =>
              let* save := check_save_attachment_as save_attachment_as in
              get_attachment_body path subject name start_interval end_interval save
          | v => raise (AssertionError
              ("email_attachment_name must be of type string. You input an object of type " ++
               type_repr v ++ "."))
          end
      | v => raise (AssertionError
          ("email_subject_name must be of type string. You input an object of type " ++
           type_repr v ++ "."))
      end
  | v => raise (AssertionError
      ("folderpath_list must be of type list. You input an object of type " ++
       type_repr v ++ "."))
  end.

(** ** [extract_zip_content] *)

(** [zipfile.is_zipfile(filepath)] and [ZipFile(filepath).namelist()]. *)
Definition namelist_of (fs : gmap string blob) (filepath : string) : option (list string) :=
  match fs !! filepath with
  | Some (Archive members) => Some (List.map fst members)
  | _ => None
  end.

Definition is_zipfile (fs : gmap string blob) (filepath : string) : bool :=
  match namelist_of fs filepath with Some _ => true | None => false end.

(** The locals the loop of lines 141-160 carries: [filepath],
    [file_found], and the loop variable [file_name], unbound until the
    first iteration. *)
Record zip_locals := mkLocals {
  filepath_var : string;
  file_found : bool;
  file_name_var : option string
}.

(** [ZipFile(filepath)]: the members of the archive at the path. *)
Definition archive_of (fs : gmap string blob) (filepath : string)
  : option (list (string * string)) :=
  match fs !! filepath with
  | Some (Archive members) => Some members
  | _ => None
  end.

(** The data [zip_file.extract] finds for a name: that of the last
    member of the name, when several members share it. *)
Fixpoint member_data (zip_file : list (string * string)) (file_name : string) : option string :=
  match zip_file with
  | [] => None
  | (n, d) :: rest =>
      match member_data rest file_name with
      | Some d' => Some d'
      | None => if String.eqb n file_name then Some d else None
      end
  end.

(** [zip_file.extract(file_name, save_unzipped_folder)]: the member is
    written where the archive reader puts it under the folder, or the
    reader raises and nothing is written. *)
Definition ZipFile_extract (zip_file : list (string * string))
    (file_name save_unzipped_folder : string) : M unit :=
  run emit (EvExtract file_name save_unzipped_folder) in
  let* target := get (fun w => extract_to w save_unzipped_folder file_name) in
  match target, member_data zip_file file_name with
  | Some t, Some data => write_file t (Bytes data)
  | Some _, None => raise (KeyError file_name)
  | None, _ => raise (OSError file_name)
  end.

(** Lines 145-150 and 154-160: the two branches run the same statements
    on a hit. *)
Definition extract_member (zip_file : list (string * string))
    (file_name save_unzipped_folder : string) : M zip_locals :=
  run ZipFile_extract zip_file file_name save_unzipped_folder in
  let filepath := save_unzipped_folder ++ backslash ++ file_name in
  run print ("Unzipped attachment saved as " ++ filepath) in
  ret (mkLocals filepath true (Some file_name)).

Definition member_matches (exact : bool) (extract_file_name file_name : string) : bool :=
  if exact then String.eqb extract_file_name file_name
  else str_in extract_file_name file_name.

Fixpoint extract_loop (zip_file : list (string * string)) (names : list string)
    (extract_file_name save_unzipped_folder : string)
    (exact : bool) (st : zip_locals) : M zip_locals :=
  match names with
  | [] => ret st
  | file_name :: rest =>
      let* st' :=
        if member_matches exact extract_file_name file_name
        then extract_member zip_file file_name save_unzipped_folder
        else ret (mkLocals (filepath_var st) (file_found st) (Some file_name)) in
      extract_loop zip_file rest extract_file_name save_unzipped_folder exact st'
  end.

(** Lines 133-163. *)
Definition extract_zip_body (filepath extract_file_name save_unzipped_folder : string)
    (exact : bool) : M pyval :=
  let* opened := get (fun w => archive_of (files w) filepath) in
  match opened with
  | None =>
      run print (filepath ++ " is not a zip file; therefore it cannot be unzipped.") in
      ret PyNone
  | Some zip_file =>
      let* st := extract_loop zip_file (List.map fst zip_file)
                              extract_file_name save_unzipped_folder exact
                              (mkLocals filepath false None) in
      if negb (file_found st)
      then
        let* file_name := of_option (file_name_var st) (UnboundLocalError "file_name") in
        run print ("Could not find file " ++ file_name ++ " in zipfile.") in
        ret PyNone
      else ret PyNone
  end.

Definition extract_zip_content (filepath : string)
    (extract_file_name save_unzipped_folder exact : pyval) : M pyval :=
  match exact with
  | PyBool exact_b =>
      match extract_file_name with
      | PyStr target =>
          match save_unzipped_folder with
          | PyStr folder => extract_zip_body filepath target folder exact_b
          | v => raise (AssertionError
              ("save_unzipped_folder must be of type string. You input an object of type " ++
               type_repr v ++ "."))
          end
      | v => raise (AssertionError
          ("extract_file_name must be of type string. You input an object of type " ++
           type_repr v ++ "."))
      end
  | v => raise (AssertionError
      ("exact must be of type bool. You input an object of type " ++ type_repr v ++ "."))
  end.

(** [df_getter] *)
Definition df_getter : M (option (list (list string))) := get df.

(** ** [set_df] *)

(** [self.df = ...] *)
Definition assign_df (t : list (list string)) : M unit :=
  fun w => (Ok tt, mkWorld (attachment_filepath w) (Some t) (files w) (trace w)
                           (outlook w) (save_ok w) (now w) (ticks w) (extract_to w)).

(** [pd.read_excel] belongs to the spreadsheet reader and is a parameter
    here: it is handed the path argument ([None] while no attachment has
    been saved) and the file system, and gives the table or raises its
    own error.  The warnings it emits are recorded and dropped (lines
    170-171), so nothing is printed. *)
Definition set_df (read_excel : option string -> gmap string blob -> result (list (list string)))
  : M unit :=
  let* path := get attachment_filepath in
  let* fs := get files in
  match read_excel path fs with
  | Ok t => assign_df t
  | Raise x => raise x
  end.

(** ** The script of lines 180-209 *)

Definition main_start : datetime := mkdt 2021 7 27 1 0 0 0.
Definition main_end : datetime := mkdt 2021 7 27 12 0 0 0.
Definition main_destination : string :=
  "C:" ++ backslash ++ "user" ++ backslash ++ "test" ++ backslash ++ "test_attachment.zip".

(** A fresh getter, then one call to [get_attachment]. *)
Definition main : M pyval :=
  fun w =>
    get_attachment (PyList ["level_1"; "level_2"]) (PyStr "email subject")
                   (PyStr "attachment.zip") (Some main_start) (Some main_end)
                   (PyStr main_destination) (init w).

(** ** Sample data for the worked cases *)

Module Sample.

Definition at_ (h m s : Z) : datetime := mkdt 2021 7 27 h m s 0.

Definition export_zip : Attachment :=
  mkAttachment "export.zip" (Archive [("2021_report_final.csv", "a,b"); ("notes.txt", "n")]).
Definition older_zip : Attachment :=
  mkAttachment "export.zip" (Archive [("old.csv", "x")]).

Definition mail (h m s : Z) (a : Attachment) : MailItem :=
  mkMail "Daily Export" (at_ h m s) [mkAttachment "logo.png" (Bytes "png"); a].

Definition store (items : list MailItem) : list (string * Folder) :=
  [("Inbox", mkFolder [] [("Reports", mkFolder items [])])].

Definition world0 (items : list MailItem) (fs : gmap string blob) : world :=
  mkWorld None None fs [] (store items) (fun _ => true) (fun n => at_ 11 7 (Z.of_nat n)) 0
          (fun d n => Some (d ++ backslash ++ n)).

(** Two matches inside [01:00:00, 12:00:30], the later one received
    after 12:00:00; and one match received before 01:00:30. *)
Definition two_in_interval : list MailItem := [mail 11 0 0 older_zip; mail 12 0 10 export_zip].
Definition one_before_start : list MailItem := [mail 1 0 10 export_zip].

Definition path : pyval := PyList ["Inbox"; "Reports"].
Definition dest : string := "C:" ++ backslash ++ "tmp" ++ backslash ++ "export.zip".

End Sample.

(** ** Notions the properties are stated with *)

Definition name_is (email_attachment_name : string) (a : Attachment) : bool :=
  String.eqb (FileName a) email_attachment_name.

(** An email matches when its subject is the wanted one and one of its
    attachments has the wanted file name. *)
Definition wanted (email_subject_name email_attachment_name : string) (m : MailItem) : bool :=
  String.eqb (Subject m) email_subject_name &&
  existsb (name_is email_attachment_name) (Attachments m).

Definition select (emails : list MailItem) (email_subject_name email_attachment_name : string)
  : option (MailItem * Attachment) :=
  match List.find (wanted email_subject_name email_attachment_name) emails with
  | Some m =>
      match List.find (name_is email_attachment_name) (Attachments m) with
      | Some a => Some (m, a)
      | None => None
      end
  | None => None
  end.

(** The world with further calls recorded and nothing else changed. *)
Definition add_trace (w : world) (tr : list event) : world :=
  mkWorld (attachment_filepath w) (df w) (files w) (trace w ++ tr)%list
          (outlook w) (save_ok w) (now w) (ticks w) (extract_to w).

(** The world after a successful [SaveAsFile] and the bookkeeping of
    lines 105-106. *)
Definition saved_world (w : world) (a : Attachment) (p : string) : world :=
  mkWorld (Some p) (df w) (<[p := payload a]> (files w))
          (trace w ++ [EvSaveAsFile a p;
                       EvPrint ("Most recent email attachment that meets criteria has been saved as "
                                ++ p ++ nl ++ nl)])%list
          (outlook w) (save_ok w) (now w) (ticks w) (extract_to w).

(** Folder resolution does not touch the world; this is its outcome. *)
Fixpoint walk (F : Folder) (rest : list string) : result Folder :=
  match rest with
  | [] => Ok F
  | folder :: rest' =>
      match folders_item (Folders F) folder with
      | Some F' => walk F' rest'
      | None => Raise (com_error folder)
      end
  end.

Definition find_folder (Outlook : list (string * Folder)) (folderpath_list : list string)
  : result Folder :=
  match folderpath_list with
  | [] => Raise (UnboundLocalError "Folder")
  | folder :: rest =>
      match folders_item Outlook folder with
      | Some F => walk F rest
      | None => Raise (com_error folder)
      end
  end.

(** The world once both progress lines are out and the session is open. *)
Definition announce (s e : datetime) (w : world) : world :=
  add_trace w [EvPrint ("Start interval email query: " ++ strftime_IM s ++ nl ++ nl);
               EvPrint ("End interval email query: " ++ strftime_IM e ++ nl ++ nl);
               EvDispatch].

(** The emails the scan runs over: those the two filters let through,
    newest first. *)
Definition in_minutes (s e : datetime) (m : MailItem) : bool :=
  Datetime.leb (floor_minute s) (ReceivedTime m) &&
  Datetime.leb (ReceivedTime m) (floor_minute e).

Definition candidates (F : Folder) (s e : datetime) : list MailItem :=
  Sort (List.filter (fun m => Datetime.leb (ReceivedTime m) (floor_minute e))
         (List.filter (fun m => Datetime.leb (floor_minute s) (ReceivedTime m)) (Items F))).

(** What the method does with the outcome of the scan. *)
Definition fetch_outcome (w : world) (sel : option (MailItem * Attachment))
    (subject name : string) (save : option string) : result pyval * world :=
  match sel with
  | None => (Raise (Exception (not_found_message subject name)), w)
  | Some (_, a) =>
      match save with
      | None => (Ok (PyAttachment a), w)
      | Some p =>
          if save_ok w p then (Ok PyNone, saved_world w a p)
          else (Raise (Exception "Attachment was not saved. Please refer to Python error."),
                add_trace w [EvSaveAsFile a p])
      end
  end.

Definition has_separator (p : string) : bool := str_in backslash p || str_in "/" p.

(** The argument [save_attachment_as] for a destination, or for none. *)
Definition py_of_dest (save : option string) : pyval :=
  match save with Some p => PyStr p | None => PyNone end.

Definition dest_ok (save : option string) : Prop :=
  match save with Some p => has_separator p = true | None => True end.

(** The interval test of the specification: the received time lies in
    [[s, e]], bounds included, at full precision. *)
Definition in_interval (s e : datetime) (m : MailItem) : bool :=
  Datetime.leb s (ReceivedTime m) && Datetime.leb (ReceivedTime m) e.

(** The call hands over attachment [a]: it is the returned handle when no
    destination was given, and the content of the destination file
    otherwise. *)
Definition delivers (save : option string) (a : Attachment) (out : result pyval * world) : Prop :=
  match save with
  | None => fst out = Ok (PyAttachment a)
  | Some p => fst out = Ok PyNone /\ files (snd out) !! p = Some (payload a)
  end.

(** The call hands over the wanted attachment of a matching email that
    satisfies [within] and is at least as recent as every other such
    match. *)
Definition fetches_most_recent (within : MailItem -> bool) (items : list MailItem)
    (subject name : string) (save : option string) (out : result pyval * world) : Prop :=
  exists m a,
    In m items /\ wanted subject name m = true /\ within m = true /\
    List.find (name_is name) (Attachments m) = Some a /\
    (forall m', In m' items -> within m' = true -> wanted subject name m' = true ->
                Datetime.le (ReceivedTime m') (ReceivedTime m)) /\
    delivers save a out.

(** Whatever attachment the call hands over comes from a matching email
    that satisfies [within]. *)
Definition selects_only (within : MailItem -> bool) (items : list MailItem)
    (subject name : string) (save : option string) (out : result pyval * world) : Prop :=
  forall a, delivers save a out ->
  exists m, In m items /\ wanted subject name m = true /\
            List.find (name_is name) (Attachments m) = Some a /\ within m = true.

Definition savable (w : world) (save : option string) : Prop :=
  match save with Some p => save_ok w p = true | None => True end.

(** The two ways a call to [get_attachment] can end: with nothing but
    further output and collaborator calls on record (and then, if it
    returned at all, it returned an attachment of the wanted name and no
    destination had been given), or with attachment [a] saved at the
    destination [p], the field set, and [None] returned. *)
Inductive fetch_effect (w : world) (name : string) (save : option string)
    : result pyval -> world -> Prop :=
| effect_quiet r tr :
    (forall v, r = Ok v -> save = None /\ exists a, v = PyAttachment a /\ FileName a = name) ->
    fetch_effect w name save r (add_trace w tr)
| effect_saved tr p a :
    save = Some p -> FileName a = name ->
    fetch_effect w name save (Ok PyNone) (saved_world (add_trace w tr) a p).

(** The returned value is the path [p]. *)
Definition references_path (v : pyval) (p : string) : Prop := v = PyStr p.

(** The members the loop extracts, in archive order. *)
Definition hits (exact : bool) (extract_file_name : string) (names : list string) : list string :=
  List.filter (member_matches exact extract_file_name) names.

(** What the loop does for them: each is extracted and its path printed
    before the next member is looked at. *)
Definition extraction_events (save_unzipped_folder : string) (found : list string) : list event :=
  flat_map (fun n => [EvExtract n save_unzipped_folder;
                      EvPrint ("Unzipped attachment saved as " ++
                               save_unzipped_folder ++ backslash ++ n)]) found.

(** The loop variable [file_name] after the loop. *)
Definition loop_variable (names : list string) (before : option string) : option string :=
  fold_left (fun _ n => Some n) names before.

(** The texts printed, in order. *)
Definition printed (tr : list event) : list string :=
  flat_map (fun ev => match ev with EvPrint t => [t] | _ => [] end) tr.

(** The members extracted, in order. *)
Definition extracted (tr : list event) : list string :=
  flat_map (fun ev => match ev with EvExtract n _ => [n] | _ => [] end) tr.

(** The world after one member has been written and its path printed. *)
Definition member_written (w : world) (folder file_name target data : string) : world :=
  mkWorld (attachment_filepath w) (df w) (<[target := Bytes data]> (files w))
          (trace w ++ [EvExtract file_name folder;
                       EvPrint ("Unzipped attachment saved as " ++
                                folder ++ backslash ++ file_name)])%list
          (outlook w) (save_ok w) (now w) (ticks w) (extract_to w).

(** The loop on the matching members alone: each is written and
    reported in turn; the first that the archive reader cannot write
    ends the call with the reader's error. *)
Fixpoint extract_hits (zip_file : list (string * string)) (folder : string)
    (found : list string) (w : world) : option exn * world :=
  match found with
  | [] => (None, w)
  | n :: rest =>
      match extract_to w folder n, member_data zip_file n with
      | Some t, Some d => extract_hits zip_file folder rest (member_written w folder n t d)
      | Some _, None => (Some (KeyError n), add_trace w [EvExtract n folder])
      | None, _ => (Some (OSError n), add_trace w [EvExtract n folder])
      end
  end.

(** The files after the members [found] have been written in order. *)
Definition write_members (w : world) (zip_file : list (string * string)) (folder : string)
    (found : list string) : gmap string blob :=
  fold_left (fun fs n =>
               match extract_to w folder n, member_data zip_file n with
               | Some t, Some d => <[t := Bytes d]> fs
               | _, _ => fs
               end) found (files w).

Definition extract_outcome (filepath extract_file_name save_unzipped_folder : string)
    (exact : bool) (w : world) : result pyval * world :=
  match archive_of (files w) filepath with
  | None =>
      (Ok PyNone,
       add_trace w [EvPrint (filepath ++ " is not a zip file; therefore it cannot be unzipped.")])
  | Some zip_file =>
      let names := List.map fst zip_file in
      match extract_hits zip_file save_unzipped_folder
                         (hits exact extract_file_name names) w with
      | (Some x, w') => (Raise x, w')
      | (None, w') =>
          match hits exact extract_file_name names with
          | _ :: _ => (Ok PyNone, w')
          | [] =>
              match loop_variable names None with
              | Some file_name =>
                  (Ok PyNone,
                   add_trace w' [EvPrint ("Could not find file " ++ file_name ++ " in zipfile.")])
              | None => (Raise (UnboundLocalError "file_name"), w')
              end
          end
      end
  end.

Module SampleZip.

Definition archive : string := "C:" ++ backslash ++ "tmp" ++ backslash ++ "export.zip".
Definition out_dir : string := "C:" ++ backslash ++ "tmp" ++ backslash ++ "out".

Definition world_with (members : list (string * string)) : world :=
  Sample.world0 [] {[ archive := Archive members ]}.


(** The substring-mode call for "report" on an archive with two members
    of such a name. *)
Definition two_reports : result pyval * world :=
  extract_zip_content archive (PyStr "report") (PyStr out_dir) (PyBool false)
    (world_with [("a_report.csv", "1"); ("notes.txt", "n"); ("b_report.csv", "2")]).

End SampleZip.

(** ** Further notions *)

Definition is_list (v : pyval) : bool := match v with PyList _ => true | _ => false end.
Definition is_str (v : pyval) : bool := match v with PyStr _ => true | _ => false end.
Definition is_bool (v : pyval) : bool := match v with PyBool _ => true | _ => false end.
Definition is_none_or_str (v : pyval) : bool :=
  match v with PyNone | PyStr _ => true | _ => false end.

(** The folders reached from the namespace after the names [pre], each
    looked up among the subfolders of the one before. *)
Fixpoint folders_at (folders : list (string * Folder)) (pre : list string)
  : option (list (string * Folder)) :=
  match pre with
  | [] => Some folders
  | folder :: rest =>
      match folders_item folders folder with
      | Some F => folders_at (Folders F) rest
      | None => None
      end
  end.

(** The bound has no seconds and no microseconds. *)
Definition whole_minute (d : datetime) : Prop := second d = 0 /\ microsecond d = 0.

(** [a] is the first attachment of the wanted name of an email with the
    wanted subject in the folder that the folder path names. *)
Definition attachment_of_match (w : world)
    (folderpath_list email_subject_name email_attachment_name : pyval) (a : Attachment) : Prop :=
  exists path subject name F m,
    folderpath_list = PyList path /\ email_subject_name = PyStr subject /\
    email_attachment_name = PyStr name /\
    find_folder (outlook w) path = Ok F /\ In m (Items F) /\
    wanted subject name m = true /\
    List.find (name_is name) (Attachments m) = Some a.

(** Nothing but further output and collaborator calls separates [w']
    from [w]. *)
Definition only_trace_grows (w w' : world) : Prop := exists tr, w' = add_trace w tr.

Module SampleSheet.

(** A reader that takes the plain bytes at the path for a one-cell
    sheet, and fails on a missing path, a missing file or an archive. *)
Definition reader (path : option string) (fs : gmap string blob)
  : result (list (list string)) :=
  match path with
  | None => Raise (Exception "no path")
  | Some p =>
      match fs !! p with
      | Some (Bytes data) => Ok [[data]]
      | _ => Raise (Exception "not a sheet")
      end
  end.

Definition sheet : Attachment := mkAttachment "export.xlsx" (Bytes "cells").

Definition mailbox : world :=
  Sample.world0 [mkMail "Daily Export" (Sample.at_ 9 0 0) [sheet]] ∅.

End SampleSheet.

Module SampleClock.


End SampleClock.

(** * Properties *)

Example scenario_two_matches :
  let w := Sample.world0 [Sample.mail 3 0 0 Sample.older_zip; Sample.mail 9 0 0 Sample.export_zip] ∅ in
  let '(r, w') := get_attachment Sample.path (PyStr "Daily Export") (PyStr "export.zip")
                    (Some (Sample.at_ 1 0 0)) (Some (Sample.at_ 12 0 0)) (PyStr Sample.dest) w in
  r = Ok PyNone /\ attachment_filepath w' = Some Sample.dest /\
  files w' !! Sample.dest = Some (payload Sample.export_zip).
Proof. vm_compute. auto. Qed.

(** ** The order on instants *)

Section DatetimeOrder.

Lemma lex_cmp_refl (a : list Z) : lex_cmp a a = Eq.
Proof. induction a as [|x a IH]; simpl; [reflexivity|]. now rewrite Z.compare_refl. Qed.

Lemma lex_cmp_antisym (a b : list Z) : lex_cmp b a = CompOpp (lex_cmp a b).
Proof.
  revert b. induction a as [|x a IH]; intros [|y b]; simpl; try reflexivity.
  rewrite (Z.compare_antisym x y). destruct (x ?= y); simpl; auto.
Qed.

Lemma lex_le_trans (a b c : list Z) :
  lex_cmp a b <> Gt -> lex_cmp b c <> Gt -> lex_cmp a c <> Gt.
Proof.
  revert b c. induction a as [|x a IH]; intros [|y b] [|z c]; simpl; try congruence.
  destruct (Z.compare_spec x y), (Z.compare_spec y z), (Z.compare_spec x z);
    try lia; try congruence; eauto.
Qed.

Lemma leb_le_iff (a b : datetime) : Datetime.leb a b = true <-> cmp a b <> Gt.
Proof. unfold Datetime.leb. destruct (cmp a b); split; congruence. Qed.

Lemma le_refl (a : datetime) : Datetime.le a a.
Proof. apply leb_le_iff. unfold cmp. now rewrite lex_cmp_refl. Qed.

Lemma le_trans (a b c : datetime) :
  Datetime.le a b -> Datetime.le b c -> Datetime.le a c.
Proof. unfold Datetime.le. rewrite !leb_le_iff. apply lex_le_trans. Qed.

Lemma le_total (a b : datetime) : Datetime.le a b \/ Datetime.le b a.
Proof.
  unfold Datetime.le. rewrite !leb_le_iff. unfold cmp.
  rewrite (lex_cmp_antisym (key a) (key b)).
  destruct (lex_cmp (key a) (key b)); simpl; auto; left; congruence.
Qed.

Lemma gtb_false_le (a b : datetime) : Datetime.gtb a b = false <-> Datetime.le a b.
Proof. unfold Datetime.gtb, Datetime.le. destruct (Datetime.leb a b); simpl; split; congruence. Qed.

Lemma valid_fields (d : datetime) :
  valid d = true ->
  1 <= year d <= 9999 /\ 1 <= month d <= 12 /\ 1 <= day d <= 31 /\
  0 <= hour d < 24 /\ 0 <= minute d < 60 /\ 0 <= second d < 60 /\
  0 <= microsecond d < 1000000.
Proof.
  unfold valid. rewrite !andb_true_iff.
  intros [[[[[[[[[[[[[H1 H2] H3] H4] H5] H6] H7] H8] H9] H10] H11] H12] H13] H14].
  assert (days_in_month (year d) (month d) <= 31).
  { unfold days_in_month.
    repeat match goal with |- context [if ?c then _ else _] => destruct c end; lia. }
  lia.
Qed.

Lemma floor_minute_le (d : datetime) : valid d = true -> Datetime.le (floor_minute d) d.
Proof.
  intros Hv. apply valid_fields in Hv. apply leb_le_iff.
  unfold cmp, key, floor_minute; simpl. rewrite !Z.compare_refl.
  destruct (second d), (microsecond d); simpl; try congruence; lia.
Qed.

Lemma floor_minute_valid (d : datetime) : valid d = true -> valid (floor_minute d) = true.
Proof.
  unfold valid, floor_minute; simpl. rewrite !andb_true_iff.
  intros [[[[[[[[[[[[[H1 H2] H3] H4] H5] H6] H7] H8] H9] H10] H11] H12] H13] H14].
  repeat split; auto.
Qed.

Lemma floor_minute_mono (s e : datetime) :
  Datetime.le s e -> Datetime.le (floor_minute s) (floor_minute e).
Proof.
  unfold Datetime.le. rewrite !leb_le_iff. unfold cmp, key, floor_minute; simpl.
  destruct (year s ?= year e), (month s ?= month e), (day s ?= day e),
           (hour s ?= hour e), (minute s ?= minute e); simpl; congruence.
Qed.

Lemma floor_minute_idem (d : datetime) : floor_minute (floor_minute d) = floor_minute d.
Proof. reflexivity. Qed.

End DatetimeOrder.

(** ** The filter strings and what [Restrict] reads from them *)

Section Rendering.

Lemma digit_val_digit (n : Z) : digit_val (digit n) = Some (n mod 10).
Proof.
  unfold digit_val, digit.
  assert (Hm : 0 <= n mod 10 < 10) by (apply Z.mod_pos_bound; lia).
  rewrite nat_ascii_embedding by lia.
  rewrite Nat2Z.inj_add, Z2Nat.id by lia. change (Z.of_nat 48) with 48.
  destruct (48 <=? 48 + n mod 10) eqn:E1; [|lia].
  destruct (48 + n mod 10 <=? 57) eqn:E2; [|lia].
  simpl. f_equal. lia.
Qed.

Lemma num2_pad (n : Z) : 0 <= n < 100 -> num2 (digit (n / 10)) (digit n) = Some n.
Proof.
  intros Hn. unfold num2. rewrite !digit_val_digit. f_equal.
  Z.div_mod_to_equations. lia.
Qed.

Lemma num4_pad (n : Z) :
  0 <= n < 10000 ->
  num4 (digit (n / 1000)) (digit (n / 100)) (digit (n / 10)) (digit n) = Some n.
Proof.
  intros Hn. unfold num4, num2. rewrite !digit_val_digit. f_equal.
  Z.div_mod_to_equations. lia.
Qed.

Lemma list_ascii_append (a b : string) :
  list_ascii_of_string (a ++ b) = (list_ascii_of_string a ++ list_ascii_of_string b)%list.
Proof. induction a as [|c a IH]; [reflexivity|]. cbn. now rewrite <- IH. Qed.

Lemma parse_literal_strftime (d : datetime) :
  valid d = true ->
  parse_literal (list_ascii_of_string (strftime_HM d ++ "'")) = Some (floor_minute d).
Proof.
  intros Hv. apply valid_fields in Hv.
  unfold strftime_HM, pad2, pad4, am_pm, parse_literal.
  rewrite !list_ascii_append.
  destruct (hour d <? 12); cbn -[digit num2 num4];
    rewrite !num2_pad, num4_pad by lia; reflexivity.
Qed.

Lemma strip_prefix_append (p x : string) : strip_prefix p (p ++ x) = Some x.
Proof.
  induction p as [|c p IH]; [reflexivity|].
  change (String c p ++ x) with (String c (p ++ x)). cbn [strip_prefix].
  now rewrite Ascii.eqb_refl.
Qed.

Lemma parse_start_filter (d : datetime) :
  valid d = true -> parse_filter (start_filter d) = Some (FGe, floor_minute d).
Proof.
  intros Hv. unfold parse_filter, start_filter.
  rewrite strip_prefix_append, parse_literal_strftime by assumption. reflexivity.
Qed.

Lemma parse_end_filter (d : datetime) :
  valid d = true -> parse_filter (end_filter d) = Some (FLe, floor_minute d).
Proof.
  intros Hv. unfold parse_filter, end_filter.
  rewrite strip_prefix_append.
  replace (strip_prefix "[ReceivedTime] >= '" ("[ReceivedTime] <= '" ++ strftime_HM d ++ "'"))
    with (@None string) by reflexivity.
  rewrite parse_literal_strftime by assumption. reflexivity.
Qed.

(** The filters the mail client applies for a given pair of bounds. *)
Lemma Restrict_start (emails : list MailItem) (d : datetime) :
  valid d = true ->
  Restrict emails (start_filter d) =
  Some (List.filter (fun e => Datetime.leb (floor_minute d) (ReceivedTime e)) emails).
Proof. intros Hv. unfold Restrict. now rewrite parse_start_filter. Qed.

Lemma Restrict_end (emails : list MailItem) (d : datetime) :
  valid d = true ->
  Restrict emails (end_filter d) =
  Some (List.filter (fun e => Datetime.leb (ReceivedTime e) (floor_minute d)) emails).
Proof. intros Hv. unfold Restrict. now rewrite parse_end_filter. Qed.

(** The rendered bound carries no seconds: whatever the mail client does
    with the string, it cannot tell a bound from its minute. *)
Lemma strftime_HM_floor (d : datetime) : strftime_HM (floor_minute d) = strftime_HM d.
Proof. reflexivity. Qed.

Lemma start_filter_floor (d : datetime) : start_filter (floor_minute d) = start_filter d.
Proof. reflexivity. Qed.

Lemma end_filter_floor (d : datetime) : end_filter (floor_minute d) = end_filter d.
Proof. reflexivity. Qed.

End Rendering.

(** ** Sorting by received time *)

Section Sorting.

#[local] Instance newer_first_trans : Transitive newer_first.
Proof. intros a b c Hab Hbc. unfold newer_first in *. eapply le_trans; eassumption. Qed.

#[local] Instance newer_first_total : Total newer_first.
Proof. intros a b. unfold newer_first. destruct (le_total (ReceivedTime a) (ReceivedTime b)); auto. Qed.

Lemma Sort_perm (emails : list MailItem) : Sort emails ≡ₚ emails.
Proof. apply merge_sort_Permutation. Qed.

Lemma Sort_sorted (emails : list MailItem) : StronglySorted newer_first (Sort emails).
Proof. apply StronglySorted_merge_sort; apply _. Qed.

Lemma Sort_In (emails : list MailItem) (m : MailItem) : In m (Sort emails) <-> In m emails.
Proof. rewrite <- !list_elem_of_In. now rewrite Sort_perm. Qed.

(** The first hit of a scan over a list sorted newest first is at least
    as recent as every other hit. *)
Lemma find_sorted_newest (P : MailItem -> bool) (l : list MailItem) (m : MailItem) :
  StronglySorted newer_first l ->
  List.find P l = Some m ->
  forall m', In m' l -> P m' = true -> Datetime.le (ReceivedTime m') (ReceivedTime m).
Proof.
  induction 1 as [|x l Hs IH Hall]; simpl; [discriminate|].
  destruct (P x) eqn:Px.
  - intros [= <-] m' [<-|Hin] _; [apply le_refl|].
    rewrite Forall_forall in Hall. apply Hall. now apply list_elem_of_In.
  - intros Hf m' [<-|Hin] Pm'; [congruence|]. now apply IH.
Qed.

End Sorting.

(** ** The scan *)

Section Scan.

Lemma add_trace_nil (w : world) : add_trace w [] = w.
Proof. destruct w. unfold add_trace. simpl. now rewrite app_nil_r. Qed.

Lemma add_trace_app (w : world) (t1 t2 : list event) :
  add_trace (add_trace w t1) t2 = add_trace w (t1 ++ t2)%list.
Proof. unfold add_trace. simpl. now rewrite app_assoc. Qed.

Lemma take_attachment_none (a : Attachment) (w : world) :
  take_attachment a None w = (Ok (Returned (PyAttachment a)), w).
Proof. reflexivity. Qed.

Lemma take_attachment_saved (a : Attachment) (p : string) (w : world) :
  save_ok w p = true ->
  take_attachment a (Some p) w = (Ok (Returned PyNone), saved_world w a p).
Proof.
  intros Hok. unfold take_attachment, try_except, SaveAsFile, bind, emit, get; simpl.
  rewrite Hok. unfold saved_world, write_file, bind, print, emit, set_attachment_filepath, ret; simpl.
  now rewrite <- app_assoc.
Qed.

Lemma take_attachment_failed (a : Attachment) (p : string) (w : world) :
  save_ok w p = false ->
  take_attachment a (Some p) w =
  (Raise (Exception "Attachment was not saved. Please refer to Python error."),
   add_trace w [EvSaveAsFile a p]).
Proof.
  intros Hok. unfold take_attachment, try_except, SaveAsFile, bind, emit, get; simpl.
  now rewrite Hok.
Qed.

Lemma take_attachment_exits (a : Attachment) (save : option string) (w : world) :
  forall found w', take_attachment a save w <> (Ok (Fallthrough found), w').
Proof.
  intros found w'. destruct save as [p|]; [|now rewrite take_attachment_none].
  destruct (save_ok w p) eqn:Hok.
  - now rewrite take_attachment_saved.
  - now rewrite take_attachment_failed.
Qed.

Lemma scan_attachments_find (atts : list Attachment) (name : string)
    (save : option string) (found : bool) (w : world) :
  scan_attachments atts name save found w =
  match List.find (name_is name) atts with
  | Some a => take_attachment a save w
  | None => (Ok (Fallthrough found), w)
  end.
Proof.
  induction atts as [|a atts IH]; simpl; [reflexivity|].
  unfold name_is at 1. destruct (String.eqb (FileName a) name); auto.
Qed.

Lemma find_name_existsb (atts : list Attachment) (name : string) :
  existsb (name_is name) atts = match List.find (name_is name) atts with Some _ => true | None => false end.
Proof. induction atts as [|a atts IH]; simpl; [reflexivity|]. destruct (name_is name a); auto. Qed.

Lemma scan_emails_select (emails : list MailItem) (subject name : string)
    (save : option string) (found : bool) (w : world) :
  scan_emails emails subject name save found w =
  match select emails subject name with
  | Some (_, a) => take_attachment a save w
  | None => (Ok (Fallthrough found), w)
  end.
Proof.
  unfold select. induction emails as [|m emails IH]; simpl; [reflexivity|].
  unfold wanted at 1. rewrite find_name_existsb.
  destruct (String.eqb (Subject m) subject); simpl; [|apply IH].
  unfold bind. rewrite scan_attachments_find.
  destruct (List.find (name_is name) (Attachments m)) as [a|] eqn:Hf; simpl;
    [rewrite Hf|apply IH].
  pose proof (take_attachment_exits a save w) as Hex.
  destruct (take_attachment a save w) as [[[f|v]|e] w1]; try reflexivity.
  now destruct (Hex f w1).
Qed.

End Scan.

(** ** [get_attachment] in closed form *)

Section ClosedForm.

Lemma descend_walk (F : Folder) (rest : list string) (w : world) :
  descend F rest w = (walk F rest, w).
Proof.
  revert F. induction rest as [|n rest IH]; intros F; simpl; [reflexivity|].
  unfold bind. destruct (folders_item (Folders F) n); simpl; auto.
Qed.

Lemma resolve_folder_find (O : list (string * Folder)) (path : list string) (w : world) :
  resolve_folder O path w = (find_folder O path, w).
Proof.
  destruct path as [|n rest]; simpl; [reflexivity|].
  unfold bind. destruct (folders_item O n); simpl; [apply descend_walk|reflexivity].
Qed.

Lemma bind_ok {A B} (c : M A) (k : A -> M B) (w w1 : world) (a : A) :
  c w = (Ok a, w1) -> bind c k w = k a w1.
Proof. intros H. unfold bind. now rewrite H. Qed.

Lemma emit_eq (ev : event) (w : world) : emit ev w = (Ok tt, add_trace w [ev]).
Proof. reflexivity. Qed.

Lemma check_interval_ok (s e : datetime) (w : world) :
  Datetime.le s e -> check_interval (Some s) (Some e) w = (Ok tt, w).
Proof. intros Hle. apply gtb_false_le in Hle. unfold check_interval. now rewrite Hle. Qed.

Lemma print_interval_some (s e : datetime) (w : world) :
  print_interval (Some s) (Some e) w =
  (Ok tt, add_trace w [EvPrint ("Start interval email query: " ++ strftime_IM s ++ nl ++ nl);
                       EvPrint ("End interval email query: " ++ strftime_IM e ++ nl ++ nl)]).
Proof.
  unfold print_interval, strftime_of, print, bind, ret. rewrite !emit_eq.
  now rewrite add_trace_app.
Qed.

Lemma outlook_add_trace (w : world) (tr : list event) : outlook (add_trace w tr) = outlook w.
Proof. reflexivity. Qed.

Lemma Dispatch_eq (w : world) : Dispatch w = (Ok (outlook w), add_trace w [EvDispatch]).
Proof. reflexivity. Qed.

Lemma scan_outcome (emails : list MailItem) (subject name : string)
    (save : option string) (w : world) :
  (let* r := scan_emails emails subject name save false in
   match r with
   | Returned v => ret v
   | Fallthrough found =>
       if negb found
       then raise (Exception (not_found_message subject name))
       else ret PyNone
   end) w = fetch_outcome w (select emails subject name) subject name save.
Proof.
  unfold bind. rewrite scan_emails_select. unfold fetch_outcome.
  destruct (select emails subject name) as [[m a]|]; [|reflexivity].
  destruct save as [p|]; [|reflexivity].
  destruct (save_ok w p) eqn:Hok.
  - now rewrite take_attachment_saved.
  - now rewrite take_attachment_failed.
Qed.

(** With both bounds given, in order, and the folder found, the method
    reaches the scan, and runs it over [candidates]. *)
Lemma get_attachment_body_scan (path : list string) (subject name : string)
    (s e : datetime) (save : option string) (F : Folder) (w : world) :
  valid s = true -> valid e = true -> Datetime.le s e ->
  find_folder (outlook w) path = Ok F ->
  get_attachment_body path subject name (Some s) (Some e) save w =
  fetch_outcome (announce s e w) (select (candidates F s e) subject name) subject name save.
Proof.
  intros Hs He Hle HF. unfold get_attachment_body.
  erewrite bind_ok by (apply check_interval_ok; assumption).
  erewrite bind_ok by apply print_interval_some.
  erewrite bind_ok by apply Dispatch_eq.
  cbv beta. unfold bind at 1.
  rewrite resolve_folder_find, !outlook_add_trace, HF.
  unfold restrict_opt. rewrite Restrict_start by assumption.
  unfold bind at 1. cbn [of_option ret].
  rewrite Restrict_end by assumption.
  unfold bind at 1. cbn [of_option ret].
  rewrite scan_outcome. rewrite add_trace_app. reflexivity.
Qed.

End ClosedForm.

(** ** What the scan selects *)

Section Selection.

Lemma find_none_iff {A} (P : A -> bool) (l : list A) :
  List.find P l = None <-> forall x, In x l -> P x = false.
Proof.
  split; [apply find_none|].
  induction l as [|a l IH]; simpl; [reflexivity|]. intros H.
  rewrite (H a) by auto. apply IH. auto.
Qed.

Lemma select_some (l : list MailItem) (subject name : string) (m : MailItem) (a : Attachment) :
  select l subject name = Some (m, a) ->
  List.find (wanted subject name) l = Some m /\
  List.find (name_is name) (Attachments m) = Some a.
Proof.
  unfold select. destruct (List.find (wanted subject name) l) as [m1|]; [|discriminate].
  destruct (List.find (name_is name) (Attachments m1)) as [a1|] eqn:Ha; [|discriminate].
  intros [= <- <-]. auto.
Qed.

Lemma select_none (l : list MailItem) (subject name : string) :
  select l subject name = None <-> forall m, In m l -> wanted subject name m = false.
Proof.
  unfold select. rewrite <- find_none_iff.
  destruct (List.find (wanted subject name) l) as [m|] eqn:Hm; [|tauto].
  apply find_some in Hm. destruct Hm as [_ Hw]. unfold wanted in Hw.
  apply andb_true_iff in Hw. destruct Hw as [_ Hex]. rewrite find_name_existsb in Hex.
  destruct (List.find (name_is name) (Attachments m)); [|discriminate].
  split; discriminate.
Qed.

Lemma candidates_In (F : Folder) (s e : datetime) (m : MailItem) :
  In m (candidates F s e) <-> In m (Items F) /\ in_minutes s e m = true.
Proof.
  unfold candidates, in_minutes. rewrite Sort_In, !filter_In, andb_true_iff. tauto.
Qed.

(** The selected email is a match that passed both filters, its first
    attachment of the wanted name is the one taken, and no other match
    that passed the filters was received later. *)
Lemma select_candidates (F : Folder) (s e : datetime) (subject name : string)
    (m : MailItem) (a : Attachment) :
  select (candidates F s e) subject name = Some (m, a) ->
  In m (Items F) /\ in_minutes s e m = true /\ wanted subject name m = true /\
  List.find (name_is name) (Attachments m) = Some a /\
  forall m', In m' (Items F) -> in_minutes s e m' = true -> wanted subject name m' = true ->
             Datetime.le (ReceivedTime m') (ReceivedTime m).
Proof.
  intros Hsel. apply select_some in Hsel. destruct Hsel as [Hm Ha].
  pose proof (find_some _ _ Hm) as [Hin Hw]. apply candidates_In in Hin.
  destruct Hin as [Hin Hmin]. repeat split; auto.
  intros m' Hin' Hmin' Hw'.
  eapply (find_sorted_newest (wanted subject name)); eauto.
  - apply Sort_sorted.
  - apply candidates_In. auto.
Qed.

Lemma select_exists (l : list MailItem) (subject name : string) (m0 : MailItem) :
  In m0 l -> wanted subject name m0 = true ->
  exists m a, select l subject name = Some (m, a).
Proof.
  intros Hin Hw. destruct (select l subject name) as [[m a]|] eqn:Hsel; [eauto|].
  rewrite select_none in Hsel. rewrite (Hsel m0 Hin) in Hw. discriminate.
Qed.

Lemma in_minutes_bounds (s e : datetime) (m : MailItem) :
  in_minutes s e m = true <->
  Datetime.le (floor_minute s) (ReceivedTime m) /\ Datetime.le (ReceivedTime m) (floor_minute e).
Proof. unfold in_minutes, Datetime.le. apply andb_true_iff. Qed.

End Selection.

(** ** The method on well-formed calls *)

Section Fetch.

Lemma check_save_ok (save : option string) (w : world) :
  dest_ok save -> check_save_attachment_as (py_of_dest save) w = (Ok save, w).
Proof.
  destruct save as [p|]; simpl; [|reflexivity].
  unfold has_separator. intros ->. reflexivity.
Qed.

(** The whole method, for a well-typed call with both bounds given in
    order, a resolvable folder and an admissible destination. *)
Lemma get_attachment_scan (path : list string) (subject name : string)
    (s e : datetime) (save : option string) (F : Folder) (w : world) :
  valid s = true -> valid e = true -> Datetime.le s e ->
  find_folder (outlook w) path = Ok F -> dest_ok save ->
  get_attachment (PyList path) (PyStr subject) (PyStr name) (Some s) (Some e)
                 (py_of_dest save) w =
  fetch_outcome (announce s e w) (select (candidates F s e) subject name) subject name save.
Proof.
  intros Hs He Hle HF Hd. unfold get_attachment.
  erewrite bind_ok by (apply check_save_ok; assumption).
  now apply get_attachment_body_scan.
Qed.

(** The bounds reach the progress lines and the filter strings without
    their seconds: a call with bounds in order cannot be told from the
    call with both bounds cut to the minute. *)
Lemma get_attachment_body_minutes (path : list string) (subject name : string)
    (s e : datetime) (save : option string) (w : world) :
  Datetime.le s e ->
  get_attachment_body path subject name (Some s) (Some e) save w =
  get_attachment_body path subject name (Some (floor_minute s)) (Some (floor_minute e)) save w.
Proof.
  intros Hle. unfold get_attachment_body.
  erewrite bind_ok by (apply check_interval_ok; exact Hle).
  symmetry. erewrite bind_ok by (apply check_interval_ok, floor_minute_mono; exact Hle).
  reflexivity.
Qed.

(** X7: the call cannot tell its bounds from the same bounds cut to the minute. *)
Lemma get_attachment_minutes (folderpath_list email_subject_name email_attachment_name : pyval)
    (s e : datetime) (save_attachment_as : pyval) (w : world) :
  Datetime.le s e ->
  get_attachment folderpath_list email_subject_name email_attachment_name
                 (Some s) (Some e) save_attachment_as w =
  get_attachment folderpath_list email_subject_name email_attachment_name
                 (Some (floor_minute s)) (Some (floor_minute e)) save_attachment_as w.
Proof.
  intros Hle. unfold get_attachment.
  destruct folderpath_list, email_subject_name, email_attachment_name; try reflexivity.
  unfold bind.
  destruct (check_save_attachment_as save_attachment_as w) as [[save|x] w1]; [|reflexivity].
  now apply get_attachment_body_minutes.
Qed.

End Fetch.

(** ** Claims about [get_attachment] *)

Section FetchClaims.

Lemma fetch_outcome_delivers (w : world) (m : MailItem) (a : Attachment)
    (subject name : string) (save : option string) :
  savable w save ->
  delivers save a (fetch_outcome w (Some (m, a)) subject name save).
Proof.
  destruct save as [p|]; simpl; [|reflexivity].
  intros ->. simpl. split; [reflexivity|]. apply lookup_insert_eq.
Qed.

Lemma fetch_outcome_ok (w : world) (sel : option (MailItem * Attachment))
    (subject name : string) (save : option string) (v : pyval) :
  fst (fetch_outcome w sel subject name save) = Ok v ->
  exists m a, sel = Some (m, a) /\ savable w save.
Proof.
  destruct sel as [[m a]|]; simpl; [|discriminate].
  destruct save as [p|]; simpl; [|eauto].
  destruct (save_ok w p) eqn:Hok; simpl; [eauto|discriminate].
Qed.

(** X22: with both bounds given, when some email of the
    folder matches the query (subject, attachment name) and passes the
    two received-time filters, which compare against the bounds cut to
    the whole minute, the call returns, or saves to the destination, the
    wanted attachment of a match that was received no earlier than any
    other such match. *)
Theorem fetch_most_recent_match (path : list string) (subject name : string)
    (s e : datetime) (save : option string) (F : Folder) (w : world) (m0 : MailItem) :
  valid s = true -> valid e = true -> Datetime.le s e ->
  find_folder (outlook w) path = Ok F -> dest_ok save -> savable w save ->
  In m0 (Items F) -> wanted subject name m0 = true -> in_minutes s e m0 = true ->
  fetches_most_recent (in_minutes s e) (Items F) subject name save
    (get_attachment (PyList path) (PyStr subject) (PyStr name) (Some s) (Some e)
                    (py_of_dest save) w).
Proof.
  intros Hs He Hle HF Hd Hsv Hin Hw Hmin.
  rewrite (get_attachment_scan path subject name s e save F w) by assumption.
  destruct (select_exists (candidates F s e) subject name m0) as (m & a & Hsel).
  { apply candidates_In. auto. }
  { assumption. }
  rewrite Hsel. apply select_candidates in Hsel.
  destruct Hsel as (H1 & H2 & H3 & H4 & H5).
  exists m, a. repeat split; auto.
  apply fetch_outcome_delivers. destruct save; auto.
Qed.

(** X23: with both bounds given in order, an attachment the
    call hands over comes from a matching email whose received time lies
    between the start bound cut to its minute and the end bound cut to
    its minute; in particular it is never later than the end bound. *)
Theorem fetch_selects_within_minutes (path : list string) (subject name : string)
    (s e : datetime) (save : option string) (F : Folder) (w : world) :
  valid s = true -> valid e = true -> Datetime.le s e ->
  find_folder (outlook w) path = Ok F -> dest_ok save ->
  let out := get_attachment (PyList path) (PyStr subject) (PyStr name) (Some s) (Some e)
                            (py_of_dest save) w in
  (forall v, fst out = Ok v ->
     exists m a, In m (Items F) /\ wanted subject name m = true /\
       List.find (name_is name) (Attachments m) = Some a /\ delivers save a out /\
       Datetime.le (floor_minute s) (ReceivedTime m) /\
       Datetime.le (ReceivedTime m) (floor_minute e) /\
       Datetime.le (ReceivedTime m) e).
Proof.
  intros Hs He Hle HF Hd out v Hv. unfold out in *. clear out.
  rewrite (get_attachment_scan path subject name s e save F w) in * by assumption.
  destruct (fetch_outcome_ok _ _ _ _ _ _ Hv) as (m & a & Hsel & Hsv).
  rewrite Hsel. apply select_candidates in Hsel.
  destruct Hsel as (H1 & H2 & H3 & H4 & H5).
  apply in_minutes_bounds in H2. destruct H2 as [Hlo Hhi].
  exists m, a. repeat split; auto.
  - apply fetch_outcome_delivers. destruct save; auto.
  - eapply le_trans; [exact Hhi|]. now apply floor_minute_le.
Qed.

End FetchClaims.

Section FetchCases.

Lemma fetch_most_recent_match_witness :
  fetches_most_recent (in_minutes (Sample.at_ 1 0 0) (Sample.at_ 12 0 0))
    [Sample.mail 3 0 0 Sample.older_zip; Sample.mail 9 0 0 Sample.export_zip]
    "Daily Export" "export.zip" (Some Sample.dest)
    (get_attachment Sample.path (PyStr "Daily Export") (PyStr "export.zip")
       (Some (Sample.at_ 1 0 0)) (Some (Sample.at_ 12 0 0)) (PyStr Sample.dest)
       (Sample.world0 [Sample.mail 3 0 0 Sample.older_zip; Sample.mail 9 0 0 Sample.export_zip] ∅)).
Proof.
  apply (fetch_most_recent_match ["Inbox"; "Reports"] "Daily Export" "export.zip"
           (Sample.at_ 1 0 0) (Sample.at_ 12 0 0) (Some Sample.dest)
           (mkFolder [Sample.mail 3 0 0 Sample.older_zip; Sample.mail 9 0 0 Sample.export_zip] [])
           (Sample.world0 [Sample.mail 3 0 0 Sample.older_zip; Sample.mail 9 0 0 Sample.export_zip] ∅)
           (Sample.mail 3 0 0 Sample.older_zip));
    try reflexivity.
  simpl. auto.
Defined.

Lemma fetch_selects_within_minutes_witness :
  exists m a,
    In m Sample.one_before_start /\
    wanted "Daily Export" "export.zip" m = true /\
    List.find (name_is "export.zip") (Attachments m) = Some a /\
    delivers None a
      (get_attachment Sample.path (PyStr "Daily Export") (PyStr "export.zip")
         (Some (Sample.at_ 1 0 30)) (Some (Sample.at_ 12 0 0)) PyNone
         (Sample.world0 Sample.one_before_start ∅)) /\
    Datetime.le (floor_minute (Sample.at_ 1 0 30)) (ReceivedTime m) /\
    Datetime.le (ReceivedTime m) (floor_minute (Sample.at_ 12 0 0)) /\
    Datetime.le (ReceivedTime m) (Sample.at_ 12 0 0).
Proof.
  apply (fetch_selects_within_minutes ["Inbox"; "Reports"] "Daily Export" "export.zip"
           (Sample.at_ 1 0 30) (Sample.at_ 12 0 0) None
           (mkFolder Sample.one_before_start [])
           (Sample.world0 Sample.one_before_start ∅)
           eq_refl eq_refl eq_refl eq_refl I (PyAttachment Sample.export_zip)).
  reflexivity.
Defined.

(** C1 (the code at the failing input): the end bound 12:00:30 reaches the mail client
    as 12:00, so the match received at 12:00:10, inside the interval and
    the most recent one, is filtered out and the older match is returned. *)
Lemma fetch_most_recent_in_interval_fails :
  Forall (fun m => wanted "Daily Export" "export.zip" m = true /\
                   in_interval (Sample.at_ 1 0 0) (Sample.at_ 12 0 30) m = true)
         Sample.two_in_interval /\
  ~ fetches_most_recent (in_interval (Sample.at_ 1 0 0) (Sample.at_ 12 0 30))
      Sample.two_in_interval "Daily Export" "export.zip" None
      (get_attachment Sample.path (PyStr "Daily Export") (PyStr "export.zip")
         (Some (Sample.at_ 1 0 0)) (Some (Sample.at_ 12 0 30)) PyNone
         (Sample.world0 Sample.two_in_interval ∅)).
Proof.
  split.
  - repeat constructor.
  - intros (m & a & Hin & Hw & Hwithin & Hfind & Hmax & Hdel).
    unfold delivers in Hdel. vm_compute in Hdel. injection Hdel as <-.
    destruct Hin as [<-|[<-|[]]].
    + specialize (Hmax (Sample.mail 12 0 10 Sample.export_zip)).
      assert (Hle : Datetime.le (ReceivedTime (Sample.mail 12 0 10 Sample.export_zip))
                                (ReceivedTime (Sample.mail 11 0 0 Sample.older_zip))).
      { apply Hmax; [simpl; auto | reflexivity | reflexivity]. }
      discriminate Hle.
    + vm_compute in Hfind. discriminate Hfind.
Qed.

(** C3 (the code at the failing input): the start bound 01:00:30 reaches the mail
    client as 01:00, so the email received at 01:00:10, before the start
    bound, passes the filter and its attachment is returned. *)
Lemma fetch_selects_before_start :
  Datetime.le (Sample.at_ 1 0 30) (Sample.at_ 12 0 0) /\
  ~ selects_only (in_interval (Sample.at_ 1 0 30) (Sample.at_ 12 0 0))
      Sample.one_before_start "Daily Export" "export.zip" None
      (get_attachment Sample.path (PyStr "Daily Export") (PyStr "export.zip")
         (Some (Sample.at_ 1 0 30)) (Some (Sample.at_ 12 0 0)) PyNone
         (Sample.world0 Sample.one_before_start ∅)).
Proof.
  split; [reflexivity|].
  intros Hsel. destruct (Hsel Sample.export_zip) as (m & Hin & _ & _ & Hwithin).
  - reflexivity.
  - destruct Hin as [<-|[]]. discriminate Hwithin.
Qed.

End FetchCases.

(** ** Substrings *)

Section Substrings.

Lemma prefix_append (x b : string) : String.prefix x (x ++ b) = true.
Proof.
  induction x as [|c x IH]; [now destruct b|].
  change (String c x ++ b) with (String c (x ++ b)). cbn [String.prefix].
  destruct (ascii_dec c c); [assumption|congruence].
Qed.


Lemma str_in_skip (x a b : string) : str_in x b = true -> str_in x (a ++ b) = true.
Proof.
  intros H. induction a as [|c a IH]; [exact H|].
  change (String c a ++ b) with (String c (a ++ b)). cbn [str_in].
  rewrite IH. apply orb_true_r.
Qed.

Lemma str_in_here (x b : string) : str_in x (x ++ b) = true.
Proof. destruct (x ++ b) eqn:E; cbn [str_in]; rewrite <- E, prefix_append; reflexivity. Qed.

Lemma str_in_middle (x a b : string) : str_in x (a ++ x ++ b) = true.
Proof. apply str_in_skip, str_in_here. Qed.


End Substrings.

Section FetchErrors.

(** X24: when the method reaches the scan (both bounds given in order,
    the folder found, an admissible destination) and no email that
    passed the filters has both the wanted subject and an attachment of
    the wanted name, the call raises an exception whose message names the
    subject, the attachment name and the "(un)specified time interval". *)
Theorem fetch_not_found (path : list string) (subject name : string)
    (s e : datetime) (save : option string) (F : Folder) (w : world) :
  valid s = true -> valid e = true -> Datetime.le s e ->
  find_folder (outlook w) path = Ok F -> dest_ok save ->
  (forall m, In m (Items F) -> in_minutes s e m = true -> wanted subject name m = false) ->
  get_attachment (PyList path) (PyStr subject) (PyStr name) (Some s) (Some e)
                 (py_of_dest save) w =
    (Raise (Exception (not_found_message subject name)), announce s e w) /\
  str_in subject (not_found_message subject name) = true /\
  str_in name (not_found_message subject name) = true /\
  str_in "(un)specified time interval" (not_found_message subject name) = true.
Proof.
  intros Hs He Hle HF Hd Hnone. split; [|unfold not_found_message; repeat split].
  - rewrite (get_attachment_scan path subject name s e save F w) by assumption.
    replace (select (candidates F s e) subject name) with (@None (MailItem * Attachment));
      [reflexivity|].
    symmetry. apply select_none. intros m Hin. apply candidates_In in Hin.
    destruct Hin. auto.
  - apply str_in_middle.
  - do 3 apply str_in_skip. apply str_in_here.
  - do 4 apply str_in_skip. reflexivity.
Qed.

Lemma fetch_not_found_witness :
  fst (get_attachment Sample.path (PyStr "Daily Export") (PyStr "export.zip")
         (Some (Sample.at_ 1 0 0)) (Some (Sample.at_ 2 0 0)) (PyStr Sample.dest)
         (Sample.world0 [Sample.mail 3 0 0 Sample.older_zip] ∅)) =
  Raise (Exception (not_found_message "Daily Export" "export.zip")).
Proof.
  refine (f_equal fst (proj1 (fetch_not_found ["Inbox"; "Reports"] "Daily Export" "export.zip"
                (Sample.at_ 1 0 0) (Sample.at_ 2 0 0) (Some Sample.dest)
                (mkFolder [Sample.mail 3 0 0 Sample.older_zip] [])
                (Sample.world0 [Sample.mail 3 0 0 Sample.older_zip] ∅) _ _ _ _ _ _)));
    try reflexivity.
  intros m [<-|[]] Hmin. discriminate Hmin.
Defined.

(** C6 (the code at the failing input): a query without bounds on a
    folder that holds no matching email does not get the not-found
    error: the call raises [AttributeError] from the first progress
    line, before the folder is even looked at. *)
Theorem fetch_unbounded_not_found_raises (path : list string) (subject name : string)
    (F : Folder) (w : world) :
  find_folder (outlook w) path = Ok F ->
  (forall m, In m (Items F) -> wanted subject name m = false) ->
  get_attachment (PyList path) (PyStr subject) (PyStr name) None None PyNone w =
    (Raise (AttributeError "'NoneType' object has no attribute 'strftime'"), w) /\
  fst (get_attachment (PyList path) (PyStr subject) (PyStr name) None None PyNone w) <>
    Raise (Exception (not_found_message subject name)).
Proof. intros _ _. split; [reflexivity|discriminate]. Qed.

Lemma fetch_unbounded_not_found_witness :
  fst (get_attachment Sample.path (PyStr "Daily Export") (PyStr "export.zip") None None PyNone
         (Sample.world0 [] ∅)) <>
  Raise (Exception (not_found_message "Daily Export" "export.zip")).
Proof.
  refine (proj2 (fetch_unbounded_not_found_raises ["Inbox"; "Reports"] "Daily Export"
                   "export.zip" (mkFolder [] []) (Sample.world0 [] ∅) eq_refl _)).
  intros m [].
Defined.

End FetchErrors.

(** ** What a call can change *)

Section Effects.

Lemma effect_raise (w : world) (name : string) (save : option string) (x : exn) (tr : list event) :
  fetch_effect w name save (Raise x) (add_trace w tr).
Proof. apply effect_quiet. discriminate. Qed.

Lemma effect_raise_here (w : world) (name : string) (save : option string) (x : exn) :
  fetch_effect w name save (Raise x) w.
Proof. rewrite <- (add_trace_nil w) at 2. apply effect_raise. Qed.

Lemma select_name (l : list MailItem) (subject name : string) (m : MailItem) (a : Attachment) :
  select l subject name = Some (m, a) -> FileName a = name.
Proof.
  intros H. apply select_some in H. destruct H as [_ H].
  apply find_some in H. destruct H as [_ H]. now apply String.eqb_eq in H.
Qed.

Lemma fetch_outcome_effect (w : world) (tr : list event) (l : list MailItem)
    (subject name : string) (save : option string) (r : result pyval) (w' : world) :
  fetch_outcome (add_trace w tr) (select l subject name) subject name save = (r, w') ->
  fetch_effect w name save r w'.
Proof.
  unfold fetch_outcome. destruct (select l subject name) as [[m a]|] eqn:Hsel; simpl.
  - apply select_name in Hsel. destruct save as [p|]; simpl.
    + destruct (save_ok w p); intros [= <- <-].
      * now apply effect_saved.
      * rewrite add_trace_app. apply effect_raise.
    + intros [= <- <-]. apply effect_quiet. intros v [= <-]. eauto.
  - intros [= <- <-]. apply effect_raise.
Qed.

Lemma get_attachment_body_effect (path : list string) (subject name : string)
    (s e : option datetime) (save : option string) (w : world)
    (r : result pyval) (w' : world) :
  get_attachment_body path subject name s e save w = (r, w') ->
  fetch_effect w name save r w'.
Proof.
  unfold get_attachment_body. destruct s as [s|]; [destruct e as [e|]|].
  - unfold bind at 1. unfold check_interval.
    destruct (Datetime.gtb s e); cbn [raise ret];
      [intros [= <- <-]; apply effect_raise_here|].
    erewrite bind_ok by apply print_interval_some.
    erewrite bind_ok by apply Dispatch_eq.
    cbv beta. unfold bind at 1. rewrite resolve_folder_find, !outlook_add_trace, add_trace_app.
    destruct (find_folder (outlook w) path) as [F|x];
      [|intros [= <- <-]; apply effect_raise].
    unfold restrict_opt.
    destruct (Restrict (Items F) (start_filter s)) as [l1|];
      unfold bind at 1; cbn [of_option ret raise];
      [|intros [= <- <-]; apply effect_raise].
    destruct (Restrict l1 (end_filter e)) as [l2|];
      unfold bind at 1; cbn [of_option ret raise];
      [|intros [= <- <-]; apply effect_raise].
    rewrite scan_outcome. apply fetch_outcome_effect.
  - intros [= <- <-].
    apply (effect_raise w name save _
             [EvPrint ("Start interval email query: " ++ strftime_IM s ++ nl ++ nl)]).
  - destruct e; intros [= <- <-]; apply effect_raise_here.
Qed.

(** The same for the method as called, whatever the arguments.  [save]
    is the destination the method works with. *)
Lemma get_attachment_effect (folderpath_list email_subject_name : pyval) (name : string)
    (s e : option datetime) (save_attachment_as : pyval) (w : world)
    (r : result pyval) (w' : world) :
  get_attachment folderpath_list email_subject_name (PyStr name) s e save_attachment_as w
    = (r, w') ->
  fetch_effect w name
    (match save_attachment_as with PyStr p => Some p | _ => None end) r w'.
Proof.
  unfold get_attachment.
  destruct folderpath_list as [| | | |path|];
    try (intros [= <- <-]; apply effect_raise_here).
  destruct email_subject_name as [|subject| | | |];
    try (intros [= <- <-]; apply effect_raise_here).
  destruct save_attachment_as as [|p| | | |];
    try (intros [= <- <-]; apply effect_raise_here).
  - unfold bind at 1. cbn [check_save_attachment_as ret]. apply get_attachment_body_effect.
  - unfold bind at 1. cbn [check_save_attachment_as].
    destruct (negb (str_in backslash p || str_in "/" p)); cbn [raise ret].
    + intros [= <- <-]. apply effect_raise_here.
    + apply get_attachment_body_effect.
Qed.

Lemma Restrict_In (l l1 : list MailItem) (f : string) (m : MailItem) :
  Restrict l f = Some l1 -> In m l1 -> In m l.
Proof.
  unfold Restrict. destruct (parse_filter f) as [[op lit]|]; [|discriminate].
  intros [= <-] Hin. apply filter_In in Hin. tauto.
Qed.

(** A call that returns has taken the first wanted attachment of a
    matching email of the resolved folder, and has either returned it
    or saved it. *)
Lemma get_attachment_body_success (path : list string) (subject name : string)
    (s e : option datetime) (save : option string) (w w' : world) (v : pyval) :
  get_attachment_body path subject name s e save w = (Ok v, w') ->
  exists F m a tr,
    find_folder (outlook w) path = Ok F /\ In m (Items F) /\
    wanted subject name m = true /\
    List.find (name_is name) (Attachments m) = Some a /\
    match save with
    | None => v = PyAttachment a /\ w' = add_trace w tr
    | Some p => v = PyNone /\ w' = saved_world (add_trace w tr) a p
    end.
Proof.
  unfold get_attachment_body. destruct s as [s|]; [destruct e as [e|]|].
  - unfold bind at 1. unfold check_interval.
    destruct (Datetime.gtb s e); cbn [raise ret]; [discriminate|].
    erewrite bind_ok by apply print_interval_some.
    erewrite bind_ok by apply Dispatch_eq.
    cbv beta. unfold bind at 1. rewrite resolve_folder_find, !outlook_add_trace, add_trace_app.
    destruct (find_folder (outlook w) path) as [F|x]; [|discriminate].
    unfold restrict_opt.
    destruct (Restrict (Items F) (start_filter s)) as [l1|] eqn:R1;
      unfold bind at 1; cbn [of_option ret raise]; [|discriminate].
    destruct (Restrict l1 (end_filter e)) as [l2|] eqn:R2;
      unfold bind at 1; cbn [of_option ret raise]; [|discriminate].
    rewrite scan_outcome. unfold fetch_outcome.
    destruct (select (Sort l2) subject name) as [[m a]|] eqn:Hsel; [|discriminate].
    apply select_some in Hsel. destruct Hsel as [Hm Ha].
    apply find_some in Hm. destruct Hm as [Hin Hw].
    apply (proj1 (Sort_In _ _)) in Hin. apply (Restrict_In _ _ _ _ R2) in Hin.
    apply (Restrict_In _ _ _ _ R1) in Hin.
    destruct save as [p|].
    + destruct (save_ok _ p); intros [= <- <-]. exists F, m, a. eexists. repeat split; auto.
    + intros [= <- <-]. exists F, m, a. eexists. repeat split; auto.
  - discriminate.
  - destruct e; discriminate.
Qed.

Lemma get_attachment_success (folderpath_list email_subject_name email_attachment_name : pyval)
    (s e : option datetime) (save_attachment_as : pyval) (w w' : world) (v : pyval) :
  get_attachment folderpath_list email_subject_name email_attachment_name s e
                 save_attachment_as w = (Ok v, w') ->
  exists a tr,
    attachment_of_match w folderpath_list email_subject_name email_attachment_name a /\
    match save_attachment_as with
    | PyStr p => v = PyNone /\ w' = saved_world (add_trace w tr) a p
    | _ => v = PyAttachment a /\ w' = add_trace w tr
    end.
Proof.
  unfold get_attachment.
  destruct folderpath_list as [| | | |path|]; try discriminate.
  destruct email_subject_name as [|subject| | | |]; try discriminate.
  destruct email_attachment_name as [|name| | | |]; try discriminate.
  destruct save_attachment_as as [|p| | | |]; try discriminate.
  - unfold bind at 1. cbn [check_save_attachment_as ret]. intros H.
    apply get_attachment_body_success in H.
    destruct H as (F & m & a & tr & HF & Hin & Hw & Ha & Hv & Hw').
    exists a, tr. split; [|auto]. exists path, subject, name, F, m. repeat split; auto.
  - unfold bind at 1. cbn [check_save_attachment_as].
    destruct (negb (str_in backslash p || str_in "/" p)); cbn [raise ret]; [discriminate|].
    intros H. apply get_attachment_body_success in H.
    destruct H as (F & m & a & tr & HF & Hin & Hw & Ha & Hv & Hw').
    exists a, tr. split; [|auto]. exists path, subject, name, F, m. repeat split; auto.
Qed.

End Effects.

(** ** Claims about failures and about the saved result *)

Section FetchResults.

(** C5: a destination without a backslash or a slash makes the call
    raise with the world exactly as it was: nothing has been printed and
    the mail session has not been opened. *)
Theorem fetch_bare_filename_fails (folderpath_list email_subject_name email_attachment_name : pyval)
    (start_interval end_interval : option datetime) (p : string) (w : world) :
  str_in backslash p = false -> str_in "/" p = false ->
  exists x,
    get_attachment folderpath_list email_subject_name email_attachment_name
                   start_interval end_interval (PyStr p) w = (Raise x, w) /\
    (forall path subject name,
       folderpath_list = PyList path -> email_subject_name = PyStr subject ->
       email_attachment_name = PyStr name ->
       x = Exception "Parameter save_attachment_as requires a full path. The method will not default to the current working directory.").
Proof.
  intros Hb Hs. unfold get_attachment.
  destruct folderpath_list as [| | | |path|];
    try (eexists; split; [reflexivity|discriminate]).
  destruct email_subject_name as [|subject| | | |];
    try (eexists; split; [reflexivity|discriminate]).
  destruct email_attachment_name as [|name| | | |];
    try (eexists; split; [reflexivity|discriminate]).
  unfold bind at 1. cbn [check_save_attachment_as]. rewrite Hb, Hs. cbn [orb negb raise].
  eexists; split; reflexivity.
Qed.

Lemma fetch_bare_filename_witness :
  exists x,
    get_attachment Sample.path (PyStr "Daily Export") (PyStr "export.zip")
      (Some (Sample.at_ 1 0 0)) (Some (Sample.at_ 12 0 0)) (PyStr "export.zip")
      (Sample.world0 [Sample.mail 9 0 0 Sample.export_zip] ∅) =
    (Raise x, Sample.world0 [Sample.mail 9 0 0 Sample.export_zip] ∅) /\
    (forall path subject name,
       Sample.path = PyList path -> PyStr "Daily Export" = PyStr subject ->
       PyStr "export.zip" = PyStr name ->
       x = Exception "Parameter save_attachment_as requires a full path. The method will not default to the current working directory.").
Proof.
  apply (fetch_bare_filename_fails Sample.path (PyStr "Daily Export") (PyStr "export.zip")
           (Some (Sample.at_ 1 0 0)) (Some (Sample.at_ 12 0 0)) "export.zip"
           (Sample.world0 [Sample.mail 9 0 0 Sample.export_zip] ∅)); reflexivity.
Defined.

(** C4 (the code at the failing inputs): with the start bound omitted the
    call raises [AttributeError] from the first progress line, with the
    end bound omitted from the second; in both cases before the mail
    session is opened. *)
Theorem fetch_omitted_bound_raises (path : list string) (subject name : string) (w : world) :
  (forall e,
     get_attachment (PyList path) (PyStr subject) (PyStr name) None e PyNone w =
     (Raise (AttributeError "'NoneType' object has no attribute 'strftime'"), w)) /\
  (forall s,
     get_attachment (PyList path) (PyStr subject) (PyStr name) (Some s) None PyNone w =
     (Raise (AttributeError "'NoneType' object has no attribute 'strftime'"),
      add_trace w [EvPrint ("Start interval email query: " ++ strftime_IM s ++ nl ++ nl)])).
Proof. split; [intros [e|]|intros s]; reflexivity. Qed.

(** C2 (as amended): a call that returns normally with a destination
    [p] has written to [p] the bytes of the first attachment of the
    wanted name of an email with the wanted subject in the named
    folder, has left every other file alone, has set
    [attachment_filepath] to [p], and has returned [None]; a call that
    returns normally without a destination has returned such an
    attachment itself and has left the files and the field alone. *)
Theorem fetch_saved_result (folderpath_list email_subject_name email_attachment_name : pyval)
    (s e : option datetime) (w w' : world) (v : pyval) :
  (forall p,
     get_attachment folderpath_list email_subject_name email_attachment_name s e (PyStr p) w
       = (Ok v, w') ->
     v = PyNone /\ attachment_filepath w' = Some p /\
     exists a,
       attachment_of_match w folderpath_list email_subject_name email_attachment_name a /\
       files w' !! p = Some (payload a) /\
       forall q, q <> p -> files w' !! q = files w !! q) /\
  (get_attachment folderpath_list email_subject_name email_attachment_name s e PyNone w
     = (Ok v, w') ->
   (exists a,
      attachment_of_match w folderpath_list email_subject_name email_attachment_name a /\
      v = PyAttachment a) /\
   attachment_filepath w' = attachment_filepath w /\ files w' = files w).
Proof.
  split; [intros p|]; intros H; apply get_attachment_success in H;
    destruct H as (a & tr & Hm & -> & ->).
  - split; [reflexivity|]. split; [reflexivity|]. exists a. split; [exact Hm|]. split.
    + cbn [files saved_world add_trace]. apply lookup_insert_eq.
    + intros q Hq. cbn [files saved_world add_trace]. apply lookup_insert_ne. congruence.
  - split; [exists a; split; [exact Hm|reflexivity]|split; reflexivity].
Qed.

Lemma fetch_saved_result_witness :
  exists a,
    attachment_of_match (Sample.world0 [Sample.mail 9 0 0 Sample.export_zip] ∅)
      Sample.path (PyStr "Daily Export") (PyStr "export.zip") a /\
    files (saved_world (announce (Sample.at_ 1 0 0) (Sample.at_ 12 0 0)
                          (Sample.world0 [Sample.mail 9 0 0 Sample.export_zip] ∅))
                       Sample.export_zip Sample.dest) !! Sample.dest = Some (payload a).
Proof.
  destruct (proj1 (fetch_saved_result Sample.path (PyStr "Daily Export") (PyStr "export.zip")
           (Some (Sample.at_ 1 0 0)) (Some (Sample.at_ 12 0 0))
           (Sample.world0 [Sample.mail 9 0 0 Sample.export_zip] ∅)
           (saved_world (announce (Sample.at_ 1 0 0) (Sample.at_ 12 0 0)
                           (Sample.world0 [Sample.mail 9 0 0 Sample.export_zip] ∅))
                        Sample.export_zip Sample.dest)
           PyNone) Sample.dest eq_refl) as (_ & _ & a & Hm & Hf & _).
  exists a. split; [exact Hm|exact Hf].
Defined.

(** C2 (as stated) fails: the successful call with a destination
    returns [None], not a value that refers to the saved path. *)
Lemma fetch_saved_returns_none :
  fst (get_attachment Sample.path (PyStr "Daily Export") (PyStr "export.zip")
         (Some (Sample.at_ 1 0 0)) (Some (Sample.at_ 12 0 0)) (PyStr Sample.dest)
         (Sample.world0 [Sample.mail 9 0 0 Sample.export_zip] ∅)) = Ok PyNone /\
  ~ (exists v,
       fst (get_attachment Sample.path (PyStr "Daily Export") (PyStr "export.zip")
              (Some (Sample.at_ 1 0 0)) (Some (Sample.at_ 12 0 0)) (PyStr Sample.dest)
              (Sample.world0 [Sample.mail 9 0 0 Sample.export_zip] ∅)) = Ok v /\
       references_path v Sample.dest).
Proof.
  split; [reflexivity|]. intros (v & Hv & H). vm_compute in Hv. injection Hv as <-.
  discriminate H.
Qed.

(** C10: a call that raises leaves [attachment_filepath] as it was. *)
Theorem fetch_failure_keeps_path (folderpath_list email_subject_name email_attachment_name : pyval)
    (s e : option datetime) (save_attachment_as : pyval) (w w' : world) (x : exn) :
  get_attachment folderpath_list email_subject_name email_attachment_name s e
                 save_attachment_as w = (Raise x, w') ->
  attachment_filepath w' = attachment_filepath w.
Proof.
  destruct email_attachment_name as [|name| | | |];
    try (destruct folderpath_list, email_subject_name; intros [= _ <-]; reflexivity).
  intros H. apply get_attachment_effect in H.
  inversion H; subst; reflexivity.
Qed.

Lemma fetch_failure_keeps_path_witness :
  attachment_filepath
    (announce (Sample.at_ 1 0 0) (Sample.at_ 2 0 0)
       (Sample.world0 [Sample.mail 3 0 0 Sample.older_zip] ∅)) =
  attachment_filepath (Sample.world0 [Sample.mail 3 0 0 Sample.older_zip] ∅).
Proof.
  apply (fetch_failure_keeps_path Sample.path (PyStr "Daily Export") (PyStr "export.zip")
           (Some (Sample.at_ 1 0 0)) (Some (Sample.at_ 2 0 0)) (PyStr Sample.dest)
           (Sample.world0 [Sample.mail 3 0 0 Sample.older_zip] ∅) _
           (Exception (not_found_message "Daily Export" "export.zip"))).
  reflexivity.
Defined.

End FetchResults.

(** ** [extract_zip_content] in closed form *)

Section Extract.

Lemma namelist_archive (fs : gmap string blob) (filepath : string) :
  namelist_of fs filepath = option_map (List.map fst) (archive_of fs filepath).
Proof.
  unfold namelist_of, archive_of. destruct (fs !! filepath) as [[data|members]|]; reflexivity.
Qed.

Lemma member_data_in (zip_file : list (string * string)) (n : string) :
  In n (List.map fst zip_file) -> member_data zip_file n <> None.
Proof.
  induction zip_file as [|[n0 d0] rest IH]; simpl; [tauto|].
  intros [->|Hin].
  - destruct (member_data rest n); [discriminate|]. rewrite String.eqb_refl. discriminate.
  - destruct (member_data rest n); [discriminate|]. now apply IH in Hin.
Qed.

Lemma bind_raise {A B} (c : M A) (k : A -> M B) (w w1 : world) (x : exn) :
  c w = (Raise x, w1) -> bind c k w = (Raise x, w1).
Proof. intros H. unfold bind. now rewrite H. Qed.

Lemma extract_member_eq (zip_file : list (string * string)) (file_name folder : string)
    (w : world) :
  extract_member zip_file file_name folder w =
  match extract_hits zip_file folder [file_name] w with
  | (None, w') => (Ok (mkLocals (folder ++ backslash ++ file_name) true (Some file_name)), w')
  | (Some x, w') => (Raise x, w')
  end.
Proof.
  unfold extract_member, ZipFile_extract, extract_hits, print, bind, get, ret.
  rewrite emit_eq. cbn [extract_to add_trace].
  destruct (extract_to w folder file_name) as [t|];
    destruct (member_data zip_file file_name) as [d|]; try reflexivity.
  unfold write_file, emit, member_written. cbn. now rewrite <- app_assoc.
Qed.

Lemma extract_loop_hit (zip_file : list (string * string)) (n : string) (names : list string)
    (target folder : string) (exact : bool) (st : zip_locals) (w : world) :
  member_matches exact target n = true ->
  extract_loop zip_file (n :: names) target folder exact st w =
  match extract_to w folder n, member_data zip_file n with
  | Some t, Some d =>
      extract_loop zip_file names target folder exact
        (mkLocals (folder ++ backslash ++ n) true (Some n)) (member_written w folder n t d)
  | Some _, None => (Raise (KeyError n), add_trace w [EvExtract n folder])
  | None, _ => (Raise (OSError n), add_trace w [EvExtract n folder])
  end.
Proof.
  intros Hm. cbn [extract_loop]. rewrite Hm. unfold bind at 1.
  rewrite extract_member_eq. cbn [extract_hits].
  destruct (extract_to w folder n) as [t|];
    destruct (member_data zip_file n) as [d|]; reflexivity.
Qed.

Lemma extract_loop_miss (zip_file : list (string * string)) (n : string) (names : list string)
    (target folder : string) (exact : bool) (st : zip_locals) (w : world) :
  member_matches exact target n = false ->
  extract_loop zip_file (n :: names) target folder exact st w =
  extract_loop zip_file names target folder exact
    (mkLocals (filepath_var st) (file_found st) (Some n)) w.
Proof. intros Hm. cbn [extract_loop]. rewrite Hm. reflexivity. Qed.

Lemma extract_loop_eq (zip_file : list (string * string)) (names : list string)
    (target folder : string) (exact : bool) (st : zip_locals) (w : world) :
  match extract_hits zip_file folder (hits exact target names) w with
  | (None, w') =>
      exists st',
        extract_loop zip_file names target folder exact st w = (Ok st', w') /\
        file_found st' = file_found st || existsb (member_matches exact target) names /\
        file_name_var st' = loop_variable names (file_name_var st)
  | (Some x, w') => extract_loop zip_file names target folder exact st w = (Raise x, w')
  end.
Proof.
  revert st w. induction names as [|n names IH]; intros st w.
  - exists st. cbn. rewrite orb_false_r. auto.
  - unfold hits. cbn [List.filter existsb loop_variable fold_left].
    destruct (member_matches exact target n) eqn:Hm.
    + rewrite extract_loop_hit by exact Hm. cbn [extract_hits].
      destruct (extract_to w folder n) as [t|];
        destruct (member_data zip_file n) as [d|]; try reflexivity.
      specialize (IH (mkLocals (folder ++ backslash ++ n) true (Some n))
                     (member_written w folder n t d)).
      unfold hits in IH.
      destruct (extract_hits zip_file folder (List.filter (member_matches exact target) names)
                             (member_written w folder n t d)) as [[x|] w']; [exact IH|].
      destruct IH as (st' & Heq & Hf & Hv). exists st'.
      split; [exact Heq|]. rewrite Hf, Hv. cbn. rewrite orb_true_r. auto.
    + rewrite extract_loop_miss by exact Hm.
      specialize (IH (mkLocals (filepath_var st) (file_found st) (Some n)) w).
      unfold hits in IH.
      destruct (extract_hits zip_file folder (List.filter (member_matches exact target) names) w)
        as [[x|] w']; [exact IH|].
      destruct IH as (st' & Heq & Hf & Hv). exists st'.
      split; [exact Heq|]. rewrite Hf, Hv. cbn. auto.
Qed.

Lemma hits_nil_existsb (exact : bool) (target : string) (names : list string) :
  hits exact target names = [] <-> existsb (member_matches exact target) names = false.
Proof.
  unfold hits. induction names as [|n names IH]; cbn; [tauto|].
  destruct (member_matches exact target n); cbn; [split; discriminate|exact IH].
Qed.

Lemma extract_zip_body_outcome (filepath target folder : string) (exact : bool) (w : world) :
  extract_zip_body filepath target folder exact w = extract_outcome filepath target folder exact w.
Proof.
  unfold extract_zip_body, extract_outcome. unfold bind at 1, get.
  destruct (archive_of (files w) filepath) as [zip_file|].
  - pose proof (extract_loop_eq zip_file (List.map fst zip_file) target folder exact
                  (mkLocals filepath false None) w) as Hloop.
    cbv zeta.
    destruct (extract_hits zip_file folder (hits exact target (List.map fst zip_file)) w)
      as [[x|] w'] eqn:Hrun.
    + erewrite bind_raise by exact Hloop. reflexivity.
    + destruct Hloop as (st' & Heq & Hf & Hv).
      erewrite bind_ok by exact Heq. cbn [file_found file_name_var orb] in Hf, Hv.
      rewrite Hf, Hv.
      destruct (hits exact target (List.map fst zip_file)) as [|h found] eqn:Hh.
      * apply hits_nil_existsb in Hh. rewrite Hh. cbn [negb].
        destruct (loop_variable (List.map fst zip_file) None) as [file_name|]; [|reflexivity].
        unfold bind at 1. cbn [of_option ret]. unfold print.
        erewrite bind_ok by apply emit_eq. reflexivity.
      * destruct (existsb (member_matches exact target) (List.map fst zip_file)) eqn:He;
          [reflexivity|].
        apply hits_nil_existsb in He. congruence.
  - unfold print. erewrite bind_ok by apply emit_eq. reflexivity.
Qed.

Lemma extract_zip_content_outcome (filepath target folder : string) (exact : bool) (w : world) :
  extract_zip_content filepath (PyStr target) (PyStr folder) (PyBool exact) w =
  extract_outcome filepath target folder exact w.
Proof. apply extract_zip_body_outcome. Qed.



Lemma extracted_events (folder : string) (found : list string) :
  extracted (extraction_events folder found) = found.
Proof.
  unfold extracted, extraction_events.
  induction found as [|n found IH]; cbn; [reflexivity|]. now f_equal.
Qed.

Lemma printed_events (folder : string) (found : list string) :
  printed (extraction_events folder found) =
  List.map (fun n => "Unzipped attachment saved as " ++ folder ++ backslash ++ n) found.
Proof.
  unfold printed, extraction_events.
  induction found as [|n found IH]; cbn; [reflexivity|]. now f_equal.
Qed.

(** The loop on members that can all be written. *)
Lemma extract_hits_ok (zip_file : list (string * string)) (folder : string)
    (found : list string) (w : world) :
  (forall n, In n found -> extract_to w folder n <> None /\ member_data zip_file n <> None) ->
  extract_hits zip_file folder found w =
  (None, mkWorld (attachment_filepath w) (df w) (write_members w zip_file folder found)
                 (trace w ++ extraction_events folder found)%list
                 (outlook w) (save_ok w) (now w) (ticks w) (extract_to w)).
Proof.
  revert w. induction found as [|n found IH]; intros w Hall.
  - cbn. destruct w; cbn. now rewrite app_nil_r.
  - destruct (Hall n (or_introl eq_refl)) as [Ht Hd].
    cbn [extract_hits].
    destruct (extract_to w folder n) as [t|] eqn:Et; [|congruence].
    destruct (member_data zip_file n) as [d|] eqn:Ed; [|congruence].
    rewrite IH.
    + unfold write_members. cbn [fold_left member_written files trace extract_to
                                  attachment_filepath df outlook save_ok now ticks].
      rewrite Et, Ed, <- app_assoc. reflexivity.
    + intros n' Hin. apply Hall. now right.
Qed.


Lemma extract_hits_fields (zip_file : list (string * string)) (folder : string)
    (found : list string) (w : world) :
  attachment_filepath (snd (extract_hits zip_file folder found w)) = attachment_filepath w /\
  df (snd (extract_hits zip_file folder found w)) = df w.
Proof.
  revert w. induction found as [|n found IH]; intros w; [split; reflexivity|].
  cbn [extract_hits].
  destruct (extract_to w folder n) as [t|]; [|split; reflexivity].
  destruct (member_data zip_file n) as [d|]; [|split; reflexivity].
  destruct (IH (member_written w folder n t d)) as [H1 H2]. rewrite H1, H2. split; reflexivity.
Qed.

Lemma extract_outcome_fields (filepath target folder : string) (exact : bool) (w : world) :
  attachment_filepath (snd (extract_outcome filepath target folder exact w))
    = attachment_filepath w /\
  df (snd (extract_outcome filepath target folder exact w)) = df w.
Proof.
  unfold extract_outcome.
  destruct (archive_of (files w) filepath) as [zip_file|]; [|split; reflexivity].
  cbv zeta.
  pose proof (extract_hits_fields zip_file folder
                (hits exact target (List.map fst zip_file)) w) as Hf.
  destruct (extract_hits zip_file folder (hits exact target (List.map fst zip_file)) w)
    as [[x|] w']; cbn [snd] in Hf; [exact Hf|].
  destruct (hits exact target (List.map fst zip_file)); [|exact Hf].
  destruct (loop_variable (List.map fst zip_file) None); exact Hf.
Qed.

Lemma extract_zip_content_fields (filepath : string)
    (extract_file_name save_unzipped_folder exact : pyval) (w : world) :
  attachment_filepath
    (snd (extract_zip_content filepath extract_file_name save_unzipped_folder exact w))
    = attachment_filepath w /\
  df (snd (extract_zip_content filepath extract_file_name save_unzipped_folder exact w)) = df w.
Proof.
  unfold extract_zip_content.
  destruct exact as [| | |b| |]; try (split; reflexivity).
  destruct extract_file_name as [|target| | | |]; try (split; reflexivity).
  destruct save_unzipped_folder as [|folder| | | |]; try (split; reflexivity).
  rewrite extract_zip_body_outcome. apply extract_outcome_fields.
Qed.

End Extract.


(** ** Claims about [extract_zip_content] *)

Section ExtractClaims.






(** C8 (the code at the failing input): on a valid archive without
    members the call raises [UnboundLocalError], because the not-found
    message reads the loop variable, which was never bound. *)
Theorem extract_empty_archive_raises (filepath target folder : string) (exact : bool) (w : world) :
  files w !! filepath = Some (Archive []) ->
  extract_zip_content filepath (PyStr target) (PyStr folder) (PyBool exact) w =
  (Raise (UnboundLocalError "file_name"), w).
Proof.
  intros H. rewrite extract_zip_content_outcome. unfold extract_outcome, archive_of.
  rewrite H. reflexivity.
Qed.

Lemma extract_empty_archive_witness :
  extract_zip_content SampleZip.archive (PyStr "report") (PyStr SampleZip.out_dir) (PyBool false)
    (SampleZip.world_with []) =
  (Raise (UnboundLocalError "file_name"), SampleZip.world_with []).
Proof.
  apply (extract_empty_archive_raises SampleZip.archive "report" SampleZip.out_dir false
           (SampleZip.world_with [])).
  reflexivity.
Defined.

(** X12: a source that is not an archive (or is missing) is a soft
    failure: one line is printed, nothing is extracted, no field and no
    file changes, and the call returns [None]. *)
Lemma extract_not_archive (filepath target folder : string) (exact : bool) (w : world) :
  is_zipfile (files w) filepath = false ->
  extract_zip_content filepath (PyStr target) (PyStr folder) (PyBool exact) w =
  (Ok PyNone,
   add_trace w [EvPrint (filepath ++ " is not a zip file; therefore it cannot be unzipped.")]).
Proof.
  unfold is_zipfile. rewrite namelist_archive. intros H.
  rewrite extract_zip_content_outcome. unfold extract_outcome.
  destruct (archive_of (files w) filepath); [discriminate|reflexivity].
Qed.

Lemma extract_outcome_no_hits (filepath target folder : string) (exact : bool)
    (names : list string) (w : world) :
  namelist_of (files w) filepath = Some names ->
  hits exact target names = [] ->
  extract_outcome filepath target folder exact w =
  match loop_variable names None with
  | Some file_name =>
      (Ok PyNone, add_trace w [EvPrint ("Could not find file " ++ file_name ++ " in zipfile.")])
  | None => (Raise (UnboundLocalError "file_name"), w)
  end.
Proof.
  rewrite namelist_archive. unfold extract_outcome.
  destruct (archive_of (files w) filepath) as [zip_file|]; [|discriminate].
  intros [= <-] Hh. cbv zeta. rewrite Hh. reflexivity.
Qed.

Lemma loop_variable_some (names : list string) (n : string) :
  exists last_name, loop_variable (n :: names) None = Some last_name /\ In last_name (n :: names).
Proof.
  unfold loop_variable. cbn [fold_left]. revert n.
  induction names as [|n' names IH]; intros n; cbn [fold_left].
  - exists n. split; [reflexivity|left; reflexivity].
  - destruct (IH n') as (l & Hl & Hin). exists l. split; [exact Hl|right; exact Hin].
Qed.

Lemma extract_no_match (filepath target folder : string) (exact : bool)
    (n : string) (names : list string) (w : world) :
  namelist_of (files w) filepath = Some (n :: names) ->
  hits exact target (n :: names) = [] ->
  exists last_name,
    In last_name (n :: names) /\
    extract_zip_content filepath (PyStr target) (PyStr folder) (PyBool exact) w =
    (Ok PyNone, add_trace w [EvPrint ("Could not find file " ++ last_name ++ " in zipfile.")]).
Proof.
  intros Hn Hh. rewrite extract_zip_content_outcome.
  rewrite (extract_outcome_no_hits filepath target folder exact (n :: names) w Hn Hh).
  destruct (loop_variable_some names n) as (l & Hl & Hin). rewrite Hl. eauto.
Qed.

End ExtractClaims.


(** ** [get_today_interval] *)

Section Today.

Lemma at_midnight_le (d : datetime) :
  valid d = true -> Datetime.le (at_midnight (year d) (month d) (day d)) d.
Proof.
  intros Hv. apply valid_fields in Hv. apply leb_le_iff.
  unfold cmp, key, at_midnight; simpl. rewrite !Z.compare_refl.
  destruct (hour d), (minute d), (second d), (microsecond d); simpl; try congruence; lia.
Qed.




End Today.


(** * Further properties of the code *)

(** ** More on instants and their rendering *)

Section MoreOnInstants.

Lemma lex_cmp_eq (a b : list Z) : lex_cmp a b = Eq -> a = b.
Proof.
  revert b. induction a as [|x a IH]; intros [|y b]; simpl; try discriminate; [reflexivity|].
  destruct (Z.compare_spec x y) as [Hxy|Hxy|Hxy]; try discriminate. intros Hr. subst. f_equal. auto.
Qed.

Lemma le_antisym (a b : datetime) : Datetime.le a b -> Datetime.le b a -> a = b.
Proof.
  unfold Datetime.le. rewrite !leb_le_iff. unfold cmp.
  rewrite (lex_cmp_antisym (key a) (key b)). intros H1 H2.
  assert (E : lex_cmp (key a) (key b) = Eq).
  { destruct (lex_cmp (key a) (key b)); simpl in *; congruence. }
  apply lex_cmp_eq in E. destruct a, b. unfold key in E. simpl in E. congruence.
Qed.

Lemma whole_minute_floor (d : datetime) : whole_minute d -> floor_minute d = d.
Proof. destruct d. unfold whole_minute, floor_minute. simpl. intros [-> ->]. reflexivity. Qed.

Lemma at_midnight_valid (d : datetime) :
  valid d = true -> valid (at_midnight (year d) (month d) (day d)) = true.
Proof.
  unfold valid, at_midnight; simpl. rewrite !andb_true_iff.
  intros [[[[[[[[[[[[[H1 H2] H3] H4] H5] H6] H7] H8] H9] H10] H11] H12] H13] H14].
  repeat split; auto.
Qed.

(** X8: The rendering of a bound loses its seconds and nothing else: two
    instants give the same text exactly when they agree up to the
    minute. *)
Theorem strftime_HM_same_minute (d1 d2 : datetime) :
  valid d1 = true -> valid d2 = true ->
  (strftime_HM d1 = strftime_HM d2 <-> floor_minute d1 = floor_minute d2).
Proof.
  intros H1 H2. split.
  - intros E.
    pose proof (parse_literal_strftime d1 H1) as P1.
    pose proof (parse_literal_strftime d2 H2) as P2.
    rewrite E in P1. congruence.
  - intros E. rewrite <- (strftime_HM_floor d1), <- (strftime_HM_floor d2). now rewrite E.
Qed.

Lemma strftime_HM_same_minute_witness :
  strftime_HM (Sample.at_ 12 0 30) = strftime_HM (Sample.at_ 12 0 10) <->
  floor_minute (Sample.at_ 12 0 30) = floor_minute (Sample.at_ 12 0 10).
Proof.
  apply (strftime_HM_same_minute (Sample.at_ 12 0 30) (Sample.at_ 12 0 10)); reflexivity.
Defined.

End MoreOnInstants.

(** ** [get_attachment]: rejected calls *)

Section FetchRejections.

(** X1: A start bound later than the end bound is refused before anything
    is printed and before the mail session is opened; the message shows
    both bounds as rendered. *)
Theorem fetch_reversed_interval_fails (path : list string) (subject name : string)
    (s e : datetime) (save : option string) (w : world) :
  dest_ok save -> Datetime.gtb s e = true ->
  get_attachment (PyList path) (PyStr subject) (PyStr name) (Some s) (Some e)
                 (py_of_dest save) w =
  (Raise (Exception
     ("Start of interval " ++ strftime_HM s ++ " is more recent than end of interval " ++
      strftime_HM e ++
      ". Start of interval must come before or at the same time as end of interval.")), w).
Proof.
  intros Hd Hgt. unfold get_attachment.
  erewrite bind_ok by (apply check_save_ok; exact Hd).
  unfold get_attachment_body, bind, check_interval. now rewrite Hgt.
Qed.

Lemma fetch_reversed_interval_witness :
  fst (get_attachment Sample.path (PyStr "Daily Export") (PyStr "export.zip")
         (Some (Sample.at_ 12 0 0)) (Some (Sample.at_ 1 0 0)) (PyStr Sample.dest)
         (Sample.world0 [Sample.mail 9 0 0 Sample.export_zip] ∅)) =
  Raise (Exception
     ("Start of interval " ++ strftime_HM (Sample.at_ 12 0 0) ++
      " is more recent than end of interval " ++ strftime_HM (Sample.at_ 1 0 0) ++
      ". Start of interval must come before or at the same time as end of interval.")).
Proof.
  refine (f_equal fst (fetch_reversed_interval_fails ["Inbox"; "Reports"] "Daily Export"
            "export.zip" (Sample.at_ 12 0 0) (Sample.at_ 1 0 0) (Some Sample.dest)
            (Sample.world0 [Sample.mail 9 0 0 Sample.export_zip] ∅) _ _)); reflexivity.
Defined.

(** X2: An argument of the wrong type (a folder path that is not a list, a
    subject or attachment name that is not a string, a destination that
    is neither [None] nor a string) makes the call raise
    [AssertionError] with the world as it was. *)
Theorem fetch_rejects_wrong_types
    (folderpath_list email_subject_name email_attachment_name : pyval)
    (s e : option datetime) (save_attachment_as : pyval) (w : world) :
  is_list folderpath_list && is_str email_subject_name && is_str email_attachment_name &&
    is_none_or_str save_attachment_as = false ->
  exists msg,
    get_attachment folderpath_list email_subject_name email_attachment_name s e
                   save_attachment_as w = (Raise (AssertionError msg), w).
Proof.
  intros H. unfold get_attachment.
  destruct folderpath_list; try (eexists; reflexivity).
  destruct email_subject_name; try (eexists; reflexivity).
  destruct email_attachment_name; try (eexists; reflexivity).
  destruct save_attachment_as; try discriminate H; eexists; reflexivity.
Qed.

Lemma fetch_rejects_wrong_types_witness :
  exists msg,
    get_attachment (PyStr "Inbox") (PyStr "Daily Export") (PyStr "export.zip")
      (Some (Sample.at_ 1 0 0)) (Some (Sample.at_ 12 0 0)) PyNone
      (Sample.world0 [] ∅) = (Raise (AssertionError msg), Sample.world0 [] ∅).
Proof.
  apply (fetch_rejects_wrong_types (PyStr "Inbox") (PyStr "Daily Export") (PyStr "export.zip")
           (Some (Sample.at_ 1 0 0)) (Some (Sample.at_ 12 0 0)) PyNone (Sample.world0 [] ∅)).
  reflexivity.
Defined.

Lemma get_attachment_unresolved (path : list string) (subject name : string)
    (s e : datetime) (save : option string) (w : world) (x : exn) :
  Datetime.le s e -> dest_ok save ->
  find_folder (outlook w) path = Raise x ->
  get_attachment (PyList path) (PyStr subject) (PyStr name) (Some s) (Some e)
                 (py_of_dest save) w = (Raise x, announce s e w).
Proof.
  intros Hle Hd HF. unfold get_attachment.
  erewrite bind_ok by (apply check_save_ok; exact Hd).
  unfold get_attachment_body.
  erewrite bind_ok by (apply check_interval_ok; assumption).
  erewrite bind_ok by apply print_interval_some.
  erewrite bind_ok by apply Dispatch_eq.
  cbv beta. unfold bind at 1.
  rewrite resolve_folder_find, !outlook_add_trace, HF, add_trace_app. reflexivity.
Qed.

(** X3: An empty folder path is not refused up front: both progress lines
    are printed and the session is opened, and only then the call
    raises [UnboundLocalError], the variable [Folder] never having been
    bound. *)
Theorem fetch_empty_folder_path (subject name : string) (s e : datetime)
    (save : option string) (w : world) :
  Datetime.le s e -> dest_ok save ->
  get_attachment (PyList []) (PyStr subject) (PyStr name) (Some s) (Some e)
                 (py_of_dest save) w =
  (Raise (UnboundLocalError "Folder"), announce s e w).
Proof. intros Hle Hd. now apply get_attachment_unresolved. Qed.

Lemma fetch_empty_folder_path_witness :
  fst (get_attachment (PyList []) (PyStr "Daily Export") (PyStr "export.zip")
         (Some (Sample.at_ 1 0 0)) (Some (Sample.at_ 12 0 0)) PyNone (Sample.world0 [] ∅)) =
  Raise (UnboundLocalError "Folder").
Proof.
  refine (f_equal fst (fetch_empty_folder_path "Daily Export" "export.zip"
            (Sample.at_ 1 0 0) (Sample.at_ 12 0 0) None (Sample.world0 [] ∅) _ _));
    reflexivity.
Defined.

Lemma walk_missing (F : Folder) (pre : list string) (seg : string) (rest : list string)
    (subs : list (string * Folder)) :
  folders_at (Folders F) pre = Some subs -> folders_item subs seg = None ->
  walk F (pre ++ seg :: rest) = Raise (com_error seg).
Proof.
  revert F. induction pre as [|n pre IH]; intros F; simpl.
  - intros [= <-] ->. reflexivity.
  - destruct (folders_item (Folders F) n) as [F'|]; [|discriminate]. apply IH.
Qed.

Lemma find_folder_missing (O : list (string * Folder)) (pre : list string) (seg : string)
    (rest : list string) (subs : list (string * Folder)) :
  folders_at O pre = Some subs -> folders_item subs seg = None ->
  find_folder O (pre ++ seg :: rest) = Raise (com_error seg).
Proof.
  destruct pre as [|n pre]; simpl.
  - intros [= <-] ->. reflexivity.
  - destruct (folders_item O n) as [F|]; [|discriminate]. apply walk_missing.
Qed.

(** X4: When the folders named so far exist and the next name is not among
    their subfolders, the call raises the mail client's error for that
    name, after the progress lines and the opening of the session; the
    names after it are not looked at. *)
Theorem fetch_missing_folder (pre : list string) (seg : string) (rest : list string)
    (subs : list (string * Folder)) (subject name : string) (s e : datetime)
    (save : option string) (w : world) :
  Datetime.le s e -> dest_ok save ->
  folders_at (outlook w) pre = Some subs -> folders_item subs seg = None ->
  get_attachment (PyList (pre ++ seg :: rest)) (PyStr subject) (PyStr name)
                 (Some s) (Some e) (py_of_dest save) w =
  (Raise (com_error seg), announce s e w).
Proof.
  intros Hle Hd Hpre Hseg. apply get_attachment_unresolved; try assumption.
  eapply find_folder_missing; eassumption.
Qed.

Lemma fetch_missing_folder_witness :
  fst (get_attachment (PyList ["Inbox"; "Archive"; "2021"]) (PyStr "Daily Export")
         (PyStr "export.zip") (Some (Sample.at_ 1 0 0)) (Some (Sample.at_ 12 0 0)) PyNone
         (Sample.world0 [] ∅)) = Raise (com_error "Archive").
Proof.
  refine (f_equal fst (fetch_missing_folder ["Inbox"] "Archive" ["2021"]
            [("Reports", mkFolder [] [])] "Daily Export" "export.zip"
            (Sample.at_ 1 0 0) (Sample.at_ 12 0 0) None (Sample.world0 [] ∅) _ _ _ _));
    reflexivity.
Defined.

End FetchRejections.

(** ** [get_attachment]: saving, and what a call leaves alone *)

Section FetchSaving.



(** X6: Whatever the arguments and however the call ends, the table field
    is untouched and the record of output and collaborator calls only
    grows; and a call without a destination changes no file and leaves
    [attachment_filepath] alone. *)
Theorem fetch_leaves_alone (folderpath_list email_subject_name email_attachment_name : pyval)
    (s e : option datetime) (save_attachment_as : pyval) (w w' : world) (r : result pyval) :
  get_attachment folderpath_list email_subject_name email_attachment_name s e
                 save_attachment_as w = (r, w') ->
  df w' = df w /\ (exists tr, trace w' = (trace w ++ tr)%list) /\
  (save_attachment_as = PyNone -> only_trace_grows w w').
Proof.
  destruct email_attachment_name as [|name| | | |];
    try (destruct folderpath_list, email_subject_name; intros [= _ <-];
         (split; [reflexivity|]); (split; [exists []; now rewrite app_nil_r|]);
         intros _; exists []; now rewrite add_trace_nil).
  intros H. apply get_attachment_effect in H.
  inversion H as [r0 tr Hq|tr p a Hp Hn]; subst.
  - split; [reflexivity|]. split; [exists tr; reflexivity|]. intros _. exists tr. reflexivity.
  - split; [reflexivity|]. split.
    + eexists. cbn [trace saved_world add_trace]. rewrite <- app_assoc. reflexivity.
    + intros ->. discriminate Hp.
Qed.

Lemma fetch_leaves_alone_witness :
  only_trace_grows (Sample.world0 Sample.one_before_start ∅)
    (snd (get_attachment Sample.path (PyStr "Daily Export") (PyStr "export.zip")
            (Some (Sample.at_ 1 0 0)) (Some (Sample.at_ 12 0 0)) PyNone
            (Sample.world0 Sample.one_before_start ∅))).
Proof.
  refine (proj2 (proj2 (fetch_leaves_alone Sample.path (PyStr "Daily Export")
            (PyStr "export.zip") (Some (Sample.at_ 1 0 0)) (Some (Sample.at_ 12 0 0)) PyNone
            (Sample.world0 Sample.one_before_start ∅) _ _ _)) eq_refl).
  apply surjective_pairing.
Defined.

Lemma get_attachment_minutes_witness :
  get_attachment Sample.path (PyStr "Daily Export") (PyStr "export.zip")
    (Some (Sample.at_ 1 0 30)) (Some (Sample.at_ 12 0 45)) PyNone
    (Sample.world0 Sample.two_in_interval ∅) =
  get_attachment Sample.path (PyStr "Daily Export") (PyStr "export.zip")
    (Some (Sample.at_ 1 0 0)) (Some (Sample.at_ 12 0 0)) PyNone
    (Sample.world0 Sample.two_in_interval ∅).
Proof.
  apply (get_attachment_minutes Sample.path (PyStr "Daily Export") (PyStr "export.zip")
           (Sample.at_ 1 0 30) (Sample.at_ 12 0 45) PyNone
           (Sample.world0 Sample.two_in_interval ∅)).
  reflexivity.
Defined.

End FetchSaving.

(** ** [get_attachment]: bounds on the minute, and today's interval *)

Section FetchBounds.

Lemma in_minutes_whole (s e : datetime) (m : MailItem) :
  whole_minute s -> whole_minute e -> in_minutes s e m = in_interval s e m.
Proof.
  intros Hs He. unfold in_minutes, in_interval.
  now rewrite (whole_minute_floor s Hs), (whole_minute_floor e He).
Qed.

(** X9: When both bounds fall on a whole minute the interval is applied as
    given: the call hands over the wanted attachment of the most recent
    match received within [[start, end]], bounds included. *)
Theorem fetch_exact_on_whole_minutes (path : list string) (subject name : string)
    (s e : datetime) (save : option string) (F : Folder) (w : world) (m0 : MailItem) :
  valid s = true -> valid e = true -> Datetime.le s e ->
  whole_minute s -> whole_minute e ->
  find_folder (outlook w) path = Ok F -> dest_ok save -> savable w save ->
  In m0 (Items F) -> wanted subject name m0 = true -> in_interval s e m0 = true ->
  fetches_most_recent (in_interval s e) (Items F) subject name save
    (get_attachment (PyList path) (PyStr subject) (PyStr name) (Some s) (Some e)
                    (py_of_dest save) w).
Proof.
  intros Hs He Hle Hws Hwe HF Hd Hsv Hin Hw Hint.
  rewrite (get_attachment_scan path subject name s e save F w) by assumption.
  destruct (select_exists (candidates F s e) subject name m0) as (m & a & Hsel).
  { apply candidates_In. rewrite in_minutes_whole by assumption. auto. }
  { assumption. }
  rewrite Hsel. apply select_candidates in Hsel.
  destruct Hsel as (H1 & H2 & H3 & H4 & H5).
  exists m, a. rewrite in_minutes_whole in H2 by assumption.
  repeat split; auto.
  - intros m' Hin' Hint' Hw'. apply H5; auto. now rewrite in_minutes_whole.
  - apply fetch_outcome_delivers. destruct save; auto.
Qed.

Lemma fetch_exact_on_whole_minutes_witness :
  fetches_most_recent (in_interval (Sample.at_ 1 0 0) (Sample.at_ 12 0 0))
    [Sample.mail 3 0 0 Sample.older_zip; Sample.mail 9 0 0 Sample.export_zip]
    "Daily Export" "export.zip" (Some Sample.dest)
    (get_attachment Sample.path (PyStr "Daily Export") (PyStr "export.zip")
       (Some (Sample.at_ 1 0 0)) (Some (Sample.at_ 12 0 0)) (PyStr Sample.dest)
       (Sample.world0 [Sample.mail 3 0 0 Sample.older_zip; Sample.mail 9 0 0 Sample.export_zip] ∅)).
Proof.
  apply (fetch_exact_on_whole_minutes ["Inbox"; "Reports"] "Daily Export" "export.zip"
           (Sample.at_ 1 0 0) (Sample.at_ 12 0 0) (Some Sample.dest)
           (mkFolder [Sample.mail 3 0 0 Sample.older_zip; Sample.mail 9 0 0 Sample.export_zip] [])
           (Sample.world0 [Sample.mail 3 0 0 Sample.older_zip; Sample.mail 9 0 0 Sample.export_zip] ∅)
           (Sample.mail 3 0 0 Sample.older_zip));
    try reflexivity; try (split; reflexivity).
  simpl. auto.
Defined.

(** X10: With the same instant as start and end, what a call hands over
    is the first wanted attachment of a matching email that was
    received at second 0 of that very minute. *)
Theorem fetch_single_instant (path : list string) (subject name : string)
    (s : datetime) (save : option string) (F : Folder) (w : world) (v : pyval) :
  valid s = true -> find_folder (outlook w) path = Ok F -> dest_ok save ->
  fst (get_attachment (PyList path) (PyStr subject) (PyStr name) (Some s) (Some s)
                      (py_of_dest save) w) = Ok v ->
  exists m a,
    In m (Items F) /\ wanted subject name m = true /\
    ReceivedTime m = floor_minute s /\
    List.find (name_is name) (Attachments m) = Some a /\
    delivers save a
      (get_attachment (PyList path) (PyStr subject) (PyStr name) (Some s) (Some s)
                      (py_of_dest save) w).
Proof.
  intros Hs HF Hd Hv.
  rewrite (get_attachment_scan path subject name s s save F w) in *
    by (try assumption; apply le_refl).
  destruct (fetch_outcome_ok _ _ _ _ _ _ Hv) as (m & a & Hsel & Hsv).
  rewrite Hsel. apply select_candidates in Hsel.
  destruct Hsel as (H1 & H2 & H3 & H4 & H5).
  apply in_minutes_bounds in H2. destruct H2 as [Hlo Hhi].
  exists m, a. repeat split; auto.
  - now apply le_antisym.
  - apply fetch_outcome_delivers. destruct save; auto.
Qed.

Lemma fetch_single_instant_witness :
  exists m a,
    In m [Sample.mail 9 0 0 Sample.export_zip; Sample.mail 9 0 20 Sample.older_zip] /\
    wanted "Daily Export" "export.zip" m = true /\
    ReceivedTime m = floor_minute (Sample.at_ 9 0 40) /\
    List.find (name_is "export.zip") (Attachments m) = Some a /\
    delivers None a
      (get_attachment Sample.path (PyStr "Daily Export") (PyStr "export.zip")
         (Some (Sample.at_ 9 0 40)) (Some (Sample.at_ 9 0 40)) PyNone
         (Sample.world0 [Sample.mail 9 0 0 Sample.export_zip;
                         Sample.mail 9 0 20 Sample.older_zip] ∅)).
Proof.
  apply (fetch_single_instant ["Inbox"; "Reports"] "Daily Export" "export.zip"
           (Sample.at_ 9 0 40) None
           (mkFolder [Sample.mail 9 0 0 Sample.export_zip;
                      Sample.mail 9 0 20 Sample.older_zip] [])
           (Sample.world0 [Sample.mail 9 0 0 Sample.export_zip;
                           Sample.mail 9 0 20 Sample.older_zip] ∅)
           (PyAttachment Sample.export_zip) eq_refl eq_refl I eq_refl).
Defined.

(** X11: The pair [get_today_interval] returns is accepted by
    [get_attachment] as its interval: the bounds are in order, the call
    reaches the scan, and the emails it scans are those received from
    00:00:00 of the day read, that instant included, up to second 0 of
    the minute of the second clock reading. *)
Theorem today_interval_feeds_fetch (path : list string) (subject name : string)
    (save : option string) (F : Folder) (w : world) :
  valid (now w (ticks w)) = true -> valid (now w (S (ticks w))) = true ->
  Datetime.le (now w (ticks w)) (now w (S (ticks w))) ->
  find_folder (outlook w) path = Ok F -> dest_ok save ->
  exists s e w1,
    get_today_interval w = (Ok (s, e), w1) /\
    get_attachment (PyList path) (PyStr subject) (PyStr name) (Some s) (Some e)
                   (py_of_dest save) w1 =
      fetch_outcome (announce s e w1) (select (candidates F s e) subject name)
                    subject name save /\
    forall m, In m (candidates F s e) <->
              In m (Items F) /\ Datetime.le s (ReceivedTime m) /\
              Datetime.le (ReceivedTime m) (floor_minute e).
Proof.
  intros H1 H2 Hmono HF Hd.
  eexists _, _, _.
  split; [unfold get_today_interval, bind, read_clock, ret; cbn; reflexivity|].
  split.
  - apply get_attachment_scan; try assumption.
    + now apply at_midnight_valid.
    + eapply le_trans; [apply at_midnight_le; exact H1|exact Hmono].
  - intros m. rewrite candidates_In, in_minutes_bounds. reflexivity.
Qed.

Lemma today_interval_feeds_fetch_witness :
  exists s e w1,
    get_today_interval (Sample.world0 [Sample.mail 9 0 0 Sample.export_zip] ∅)
      = (Ok (s, e), w1) /\
    fst (get_attachment Sample.path (PyStr "Daily Export") (PyStr "export.zip")
           (Some s) (Some e) PyNone w1) = Ok (PyAttachment Sample.export_zip).
Proof.
  destruct (today_interval_feeds_fetch ["Inbox"; "Reports"] "Daily Export" "export.zip" None
              (mkFolder [Sample.mail 9 0 0 Sample.export_zip] [])
              (Sample.world0 [Sample.mail 9 0 0 Sample.export_zip] ∅)
              eq_refl eq_refl eq_refl eq_refl I) as (s & e & w1 & Hrun & Hfetch & _).
  exists s, e, w1. split; [exact Hrun|].
  change (fst (get_attachment (PyList ["Inbox"; "Reports"]) (PyStr "Daily Export")
                 (PyStr "export.zip") (Some s) (Some e) (py_of_dest None) w1) =
          Ok (PyAttachment Sample.export_zip)).
  rewrite Hfetch. injection Hrun as <- <- <-. reflexivity.
Defined.

End FetchBounds.

(** ** [extract_zip_content]: soft failures, empty target, fields *)

Section MoreOnExtract.

Lemma extract_not_archive_witness :
  extract_zip_content SampleZip.archive (PyStr "report") (PyStr SampleZip.out_dir) (PyBool true)
    (Sample.world0 [] {[ SampleZip.archive := Bytes "not a zip" ]}) =
  (Ok PyNone,
   add_trace (Sample.world0 [] {[ SampleZip.archive := Bytes "not a zip" ]})
     [EvPrint (SampleZip.archive ++ " is not a zip file; therefore it cannot be unzipped.")]).
Proof.
  apply (extract_not_archive SampleZip.archive "report" SampleZip.out_dir true
           (Sample.world0 [] {[ SampleZip.archive := Bytes "not a zip" ]})).
  reflexivity.
Defined.

Lemma loop_variable_last (names : list string) (before : option string) :
  names <> [] -> loop_variable names before = Some (List.last names "").
Proof.
  unfold loop_variable. revert before.
  induction names as [|n names IH]; intros before Hne; [congruence|].
  cbn [fold_left]. destruct names as [|n' names]; [reflexivity|].
  rewrite IH by discriminate. reflexivity.
Qed.

(** X13: On an archive that has members, none of which matches, the call
    extracts nothing, prints one line and returns [None]; the line names
    the last member of the archive, not the name that was asked for. *)
Theorem extract_no_match_names_last_member (filepath target folder : string) (exact : bool)
    (names : list string) (w : world) :
  namelist_of (files w) filepath = Some names -> names <> [] ->
  hits exact target names = [] ->
  extract_zip_content filepath (PyStr target) (PyStr folder) (PyBool exact) w =
  (Ok PyNone,
   add_trace w [EvPrint ("Could not find file " ++ List.last names "" ++ " in zipfile.")]).
Proof.
  intros Hn Hne Hh. rewrite extract_zip_content_outcome.
  rewrite (extract_outcome_no_hits filepath target folder exact names w Hn Hh).
  rewrite loop_variable_last by assumption. reflexivity.
Qed.

Lemma extract_no_match_witness :
  extract_zip_content SampleZip.archive (PyStr "report.csv") (PyStr SampleZip.out_dir)
    (PyBool true)
    (SampleZip.world_with [("2021_report_final.csv", "a,b"); ("notes.txt", "n")]) =
  (Ok PyNone,
   add_trace (SampleZip.world_with [("2021_report_final.csv", "a,b"); ("notes.txt", "n")])
     [EvPrint "Could not find file notes.txt in zipfile."]).
Proof.
  apply (extract_no_match_names_last_member SampleZip.archive "report.csv" SampleZip.out_dir
           true ["2021_report_final.csv"; "notes.txt"]
           (SampleZip.world_with [("2021_report_final.csv", "a,b"); ("notes.txt", "n")])).
  - reflexivity.
  - discriminate.
  - reflexivity.
Defined.

Lemma str_in_empty (h : string) : str_in "" h = true.
Proof. destruct h; reflexivity. Qed.

Lemma hits_empty_target (names : list string) : hits false "" names = names.
Proof.
  unfold hits. induction names as [|n names IH]; [reflexivity|].
  cbn [List.filter]. unfold member_matches at 1. rewrite str_in_empty. now f_equal.
Qed.

(** X14: In substring mode an empty target is contained in every name:
    when every member can be written under the folder, every member of
    the archive is extracted and reported, in archive order, and the
    call returns [None]. *)
Theorem extract_empty_target_takes_all (filepath folder : string)
    (zip_file : list (string * string)) (w : world) :
  archive_of (files w) filepath = Some zip_file -> zip_file <> [] ->
  (forall n, In n (List.map fst zip_file) -> extract_to w folder n <> None) ->
  exists w',
    extract_zip_content filepath (PyStr "") (PyStr folder) (PyBool false) w = (Ok PyNone, w') /\
    trace w' = (trace w ++ extraction_events folder (List.map fst zip_file))%list /\
    files w' = write_members w zip_file folder (List.map fst zip_file).
Proof.
  intros Ha Hne Hok. rewrite extract_zip_content_outcome. unfold extract_outcome.
  rewrite Ha. cbv zeta. rewrite hits_empty_target.
  rewrite extract_hits_ok.
  - destruct zip_file as [|[n d] rest]; [congruence|]. cbn [List.map fst].
    eexists. split; [reflexivity|]. split; reflexivity.
  - intros n Hin. split; [now apply Hok|now apply member_data_in].
Qed.

Lemma extract_empty_target_witness :
  exists w',
    extract_zip_content SampleZip.archive (PyStr "") (PyStr SampleZip.out_dir) (PyBool false)
      (SampleZip.world_with [("2021_report_final.csv", "a,b"); ("notes.txt", "n")])
      = (Ok PyNone, w') /\
    trace w' =
      extraction_events SampleZip.out_dir ["2021_report_final.csv"; "notes.txt"].
Proof.
  destruct (extract_empty_target_takes_all SampleZip.archive SampleZip.out_dir
              [("2021_report_final.csv", "a,b"); ("notes.txt", "n")]
              (SampleZip.world_with [("2021_report_final.csv", "a,b"); ("notes.txt", "n")])
              eq_refl) as (w' & H1 & H2 & _).
  - discriminate.
  - intros n _. discriminate.
  - exists w'. split; [exact H1|exact H2].
Defined.

(** X15: An argument of the wrong type ([exact] not a bool, the target or
    the folder not a string) makes the call raise [AssertionError] with
    nothing printed and nothing extracted. *)
Theorem extract_rejects_wrong_types (filepath : string)
    (extract_file_name save_unzipped_folder exact : pyval) (w : world) :
  is_bool exact && is_str extract_file_name && is_str save_unzipped_folder = false ->
  exists msg,
    extract_zip_content filepath extract_file_name save_unzipped_folder exact w =
    (Raise (AssertionError msg), w).
Proof.
  intros H. unfold extract_zip_content.
  destruct exact; try (eexists; reflexivity).
  destruct extract_file_name; try (eexists; reflexivity).
  destruct save_unzipped_folder; try discriminate H; eexists; reflexivity.
Qed.

Lemma extract_rejects_wrong_types_witness :
  exists msg,
    extract_zip_content SampleZip.archive (PyStr "report") (PyStr SampleZip.out_dir) (PyInt 1)
      (SampleZip.world_with []) = (Raise (AssertionError msg), SampleZip.world_with []).
Proof.
  apply (extract_rejects_wrong_types SampleZip.archive (PyStr "report")
           (PyStr SampleZip.out_dir) (PyInt 1) (SampleZip.world_with [])).
  reflexivity.
Defined.

(** X16: However a call to [extract_zip_content] ends, it leaves
    [attachment_filepath] and the table field as they were: the path the
    getter remembers stays that of the saved attachment, not of an
    extracted member. *)
Theorem extract_keeps_fields (filepath : string)
    (extract_file_name save_unzipped_folder exact : pyval) (w w' : world) (r : result pyval) :
  extract_zip_content filepath extract_file_name save_unzipped_folder exact w = (r, w') ->
  attachment_filepath w' = attachment_filepath w /\ df w' = df w.
Proof.
  intros H.
  pose proof (extract_zip_content_fields filepath extract_file_name save_unzipped_folder
                exact w) as Hf.
  rewrite H in Hf. exact Hf.
Qed.

Lemma extract_keeps_fields_witness :
  attachment_filepath (snd SampleZip.two_reports) = None /\ df (snd SampleZip.two_reports) = None.
Proof.
  apply (extract_keeps_fields SampleZip.archive (PyStr "report") (PyStr SampleZip.out_dir)
           (PyBool false)
           (SampleZip.world_with [("a_report.csv", "1"); ("notes.txt", "n"); ("b_report.csv", "2")])
           (snd SampleZip.two_reports) (fst SampleZip.two_reports)).
  apply surjective_pairing.
Defined.



End MoreOnExtract.

(** ** [set_df], [df_getter] and the script *)

Section Tables.

Variable read_excel : option string -> gmap string blob -> result (list (list string)).

Lemma set_df_run (w : world) :
  set_df read_excel w =
  match read_excel (attachment_filepath w) (files w) with
  | Ok t => (Ok tt, mkWorld (attachment_filepath w) (Some t) (files w) (trace w)
                            (outlook w) (save_ok w) (now w) (ticks w) (extract_to w))
  | Raise x => (Raise x, w)
  end.
Proof.
  unfold set_df, bind, get. destruct (read_excel (attachment_filepath w) (files w)); reflexivity.
Qed.

(** X17: A load that fails raises the reader's own error and keeps the table
    loaded before; a load that succeeds replaces it, and [df_getter]
    then returns the new table.  Either way nothing is printed and the
    remembered path and the files are untouched. *)
Theorem set_df_then_getter (w w' : world) (r : result unit) :
  set_df read_excel w = (r, w') ->
  attachment_filepath w' = attachment_filepath w /\ files w' = files w /\
  trace w' = trace w /\
  match read_excel (attachment_filepath w) (files w) with
  | Ok t => r = Ok tt /\ df_getter w' = (Ok (Some t), w')
  | Raise x => r = Raise x /\ df_getter w' = (Ok (df w), w')
  end.
Proof.
  rewrite set_df_run.
  destruct (read_excel (attachment_filepath w) (files w)); intros [= <- <-]; repeat split.
Qed.

(** X18: After a call to [get_attachment] that returned with a destination
    [p], the file at [p] holds the bytes of the first wanted attachment
    of a matching email of the named folder, and [set_df] hands the
    reader exactly [p]; the table the reader gives for it is what
    [df_getter] returns afterwards. *)
Theorem fetch_then_set_df (folderpath_list email_subject_name email_attachment_name : pyval)
    (s e : option datetime) (p : string) (w w' : world) (v : pyval) :
  get_attachment folderpath_list email_subject_name email_attachment_name s e (PyStr p) w
    = (Ok v, w') ->
  (exists a,
     attachment_of_match w folderpath_list email_subject_name email_attachment_name a /\
     files w' !! p = Some (payload a)) /\
  set_df read_excel w' =
    match read_excel (Some p) (files w') with
    | Ok t => (Ok tt, mkWorld (Some p) (Some t) (files w') (trace w')
                              (outlook w') (save_ok w') (now w') (ticks w') (extract_to w'))
    | Raise x => (Raise x, w')
    end.
Proof.
  intros H. apply get_attachment_success in H.
  destruct H as (a & tr & Hm & -> & ->). split.
  - exists a. split; [exact Hm|]. cbn [files saved_world add_trace]. apply lookup_insert_eq.
  - apply set_df_run.
Qed.

(** X19: After a call to [extract_zip_content], however it ended, [set_df]
    still hands the reader the path remembered before the call. *)
Theorem extract_then_set_df (filepath : string)
    (extract_file_name save_unzipped_folder exact : pyval) (w w' : world) (r : result pyval)
    (t : list (list string)) :
  extract_zip_content filepath extract_file_name save_unzipped_folder exact w = (r, w') ->
  read_excel (attachment_filepath w) (files w') = Ok t ->
  exists w2, set_df read_excel w' = (Ok tt, w2) /\ df w2 = Some t.
Proof.
  intros Hx Hr. rewrite set_df_run.
  assert (E : attachment_filepath w' = attachment_filepath w).
  { pose proof (extract_zip_content_fields filepath extract_file_name save_unzipped_folder
                  exact w) as Hf.
    rewrite Hx in Hf. apply Hf. }
  rewrite E, Hr. eexists. split; reflexivity.
Qed.

End Tables.

Section TablesCases.

Lemma set_df_then_getter_witness :
  df_getter (snd (set_df SampleSheet.reader (Sample.world0 [] ∅))) =
  (Ok None, snd (set_df SampleSheet.reader (Sample.world0 [] ∅))).
Proof.
  exact (proj2 (proj2 (proj2 (proj2
    (set_df_then_getter SampleSheet.reader (Sample.world0 [] ∅) _ _
       (surjective_pairing _)))))).
Defined.

Lemma fetch_then_set_df_witness :
  exists a,
    attachment_of_match SampleSheet.mailbox Sample.path (PyStr "Daily Export")
      (PyStr "export.xlsx") a /\
    files (snd (get_attachment Sample.path (PyStr "Daily Export") (PyStr "export.xlsx")
                  (Some (Sample.at_ 1 0 0)) (Some (Sample.at_ 12 0 0)) (PyStr Sample.dest)
                  SampleSheet.mailbox)) !! Sample.dest = Some (payload a).
Proof.
  refine (proj1 (fetch_then_set_df SampleSheet.reader Sample.path (PyStr "Daily Export")
                  (PyStr "export.xlsx") (Some (Sample.at_ 1 0 0)) (Some (Sample.at_ 12 0 0))
                  Sample.dest SampleSheet.mailbox
                  (snd (get_attachment Sample.path (PyStr "Daily Export") (PyStr "export.xlsx")
                          (Some (Sample.at_ 1 0 0)) (Some (Sample.at_ 12 0 0))
                          (PyStr Sample.dest) SampleSheet.mailbox))
                  PyNone _)).
  vm_compute. reflexivity.
Defined.

Lemma extract_then_set_df_witness :
  exists w2,
    set_df SampleSheet.reader
      (snd (extract_zip_content Sample.dest (PyStr "x") (PyStr SampleZip.out_dir) (PyBool false)
              (mkWorld (Some Sample.dest) None {[ Sample.dest := Bytes "cells" ]} []
                 [] (fun _ => true) (fun n => Sample.at_ 11 7 (Z.of_nat n)) 0
          (fun d n => Some (d ++ backslash ++ n)))))
    = (Ok tt, w2) /\ df w2 = Some [["cells"]].
Proof.
  apply (extract_then_set_df SampleSheet.reader Sample.dest (PyStr "x")
           (PyStr SampleZip.out_dir) (PyBool false)
           (mkWorld (Some Sample.dest) None {[ Sample.dest := Bytes "cells" ]} []
              [] (fun _ => true) (fun n => Sample.at_ 11 7 (Z.of_nat n)) 0
          (fun d n => Some (d ++ backslash ++ n)))
           _ _ [["cells"]] (surjective_pairing _)).
  reflexivity.
Defined.

End TablesCases.

(** ** The script *)

Section Script.

Lemma outcome_most_recent (within : MailItem -> bool) (F : Folder) (s e : datetime)
    (subject name : string) (save : option string) (w : world) (m0 : MailItem) :
  (forall m, in_minutes s e m = within m) -> savable w save ->
  In m0 (Items F) -> wanted subject name m0 = true -> within m0 = true ->
  fetches_most_recent within (Items F) subject name save
    (fetch_outcome w (select (candidates F s e) subject name) subject name save).
Proof.
  intros Hsame Hsv Hin Hw Hwithin.
  destruct (select_exists (candidates F s e) subject name m0) as (m & a & Hsel).
  { apply candidates_In. rewrite Hsame. auto. }
  { assumption. }
  rewrite Hsel. apply select_candidates in Hsel.
  destruct Hsel as (H1 & H2 & H3 & H4 & H5).
  exists m, a. rewrite Hsame in H2. repeat split; auto.
  - intros m' Hin' Hw' Hwanted'. apply H5; auto. now rewrite Hsame.
  - now apply fetch_outcome_delivers.
Qed.

(** X20: The script works on a fresh getter and passes every check on its
    own arguments.  When the folder level_1/level_2 exists, the
    destination can be written and some email there has the subject
    "email subject" and an attachment "attachment.zip" and was received
    on 27 July 2021 between 01:00:00 and 12:00:00, bounds included, the
    script saves the attachment of the most recent such email to the
    destination and leaves the getter remembering that path, with no
    table loaded. *)
Theorem main_saves_most_recent (w : world) (F : Folder) (m0 : MailItem) :
  find_folder (outlook w) ["level_1"; "level_2"] = Ok F ->
  save_ok w main_destination = true ->
  In m0 (Items F) -> wanted "email subject" "attachment.zip" m0 = true ->
  in_interval main_start main_end m0 = true ->
  fetches_most_recent (in_interval main_start main_end) (Items F)
    "email subject" "attachment.zip" (Some main_destination) (main w) /\
  attachment_filepath (snd (main w)) = Some main_destination /\
  df (snd (main w)) = None.
Proof.
  intros HF Hok Hin Hw Hint. unfold main.
  change (PyStr main_destination) with (py_of_dest (Some main_destination)).
  rewrite (get_attachment_scan ["level_1"; "level_2"] "email subject" "attachment.zip"
             main_start main_end (Some main_destination) F (init w))
    by (try reflexivity; exact HF).
  split.
  - apply (outcome_most_recent _ F main_start main_end _ _ _ _ m0); auto;
      intros m; apply in_minutes_whole; split; reflexivity.
  - destruct (select_exists (candidates F main_start main_end)
                "email subject" "attachment.zip" m0) as (m & a & Hsel).
    { apply candidates_In. rewrite in_minutes_whole by (split; reflexivity). auto. }
    { assumption. }
    rewrite Hsel. unfold fetch_outcome.
    change (save_ok (announce main_start main_end (init w)) main_destination)
      with (save_ok w main_destination).
    rewrite Hok. split; reflexivity.
Qed.

Lemma main_saves_most_recent_witness :
  attachment_filepath
    (snd (main (mkWorld (Some "old") (Some [["stale"]]) ∅ []
                  [("level_1",
                    mkFolder [] [("level_2",
                      mkFolder [mkMail "email subject" (mkdt 2021 7 27 8 30 15 0)
                                  [mkAttachment "attachment.zip" (Archive [])]] [])])]
                  (fun _ => true) (fun n => Sample.at_ 11 7 (Z.of_nat n)) 0
          (fun d n => Some (d ++ backslash ++ n)))))
  = Some main_destination.
Proof.
  refine (proj1 (proj2 (main_saves_most_recent
            (mkWorld (Some "old") (Some [["stale"]]) ∅ []
               [("level_1",
                 mkFolder [] [("level_2",
                   mkFolder [mkMail "email subject" (mkdt 2021 7 27 8 30 15 0)
                               [mkAttachment "attachment.zip" (Archive [])]] [])])]
               (fun _ => true) (fun n => Sample.at_ 11 7 (Z.of_nat n)) 0
          (fun d n => Some (d ++ backslash ++ n)))
            (mkFolder [mkMail "email subject" (mkdt 2021 7 27 8 30 15 0)
                         [mkAttachment "attachment.zip" (Archive [])]] [])
            (mkMail "email subject" (mkdt 2021 7 27 8 30 15 0)
               [mkAttachment "attachment.zip" (Archive [])])
            _ _ _ _ _))); try reflexivity.
  left. reflexivity.
Defined.

End Script.
